(** * Orbital dashboard: HTTP clients, wallet hook and scene animation

    A shallow embedding of the TypeScript sources

    - [src/unnamed/part_001]                  ([NASADebrisClient]),
    - [src/components/settings-dropdown.tsx]  ([BlockchainClient]),
    - [src/components/hooks/use-wallet.ts]    ([useWallet]),
    - [src/unnamed/part_000]                  (the [useFrame] callbacks of the
                                               3D scene components),

    followed by the properties established about them.

    Conventions.  A JavaScript [string] is a [string] of bytes; a [number]
    that travels through the HTTP clients is an integer [Z] (its [toString]
    is the decimal rendering, its truthiness is [_ <> 0]); [undefined] is
    [None].  An [async] method is a computation in the monad [M], which
    threads the browser [World] (network, storage, console, the client
    object) and either returns a value or throws. *)

From Stdlib Require Import ZArith String Ascii List Bool Lia QArith Reals Lra.
From stdpp Require Import base strings pretty gmap list.

Set Warnings "-register-all".

Open Scope string_scope.
Open Scope Z_scope.

(* ===================================================================== *)
(** ** JavaScript values, strings and JSON *)
(* ===================================================================== *)

Module Js.

(** The values [JSON.parse] can produce (and [JSON.stringify] consume).  The
    fields of a [JObj] are the object's own properties in enumeration
    order, each name once. *)
Inductive Json : Type :=
| JNull
| JBool (b : bool)
| JNum (n : Z)
| JStr (s : string)
| JArr (items : list Json)
| JObj (fields : list (string * Json)).

(** A JavaScript value as seen through a property access: [None] is
    [undefined]. *)
Definition JsVal : Type := option Json.

(** What a [throw] carries: an [Error] with its [message], or one of the
    engine's or a library's own errors. *)
Inductive Exn : Type :=
| Error (message : string)
| TypeError (what : string)
| SyntaxError (what : string)
| LibraryError (what : string).    (* thrown from inside a library call *)

Inductive Outcome (A : Type) : Type :=
| Return (a : A)
| Throw (e : Exn).
Arguments Return {A} a.
Arguments Throw {A} e.

(** ToBoolean on a JSON value. *)
Definition truthy (j : Json) : bool :=
  match j with
  | JNull => false
  | JBool b => b
  | JNum n => negb (n =? 0)
  | JStr s => negb (String.eqb s "")
  | JArr _ | JObj _ => true
  end.

Definition truthyVal (v : JsVal) : bool :=
  match v with
  | None => false
  | Some j => truthy j
  end.

(** ToBoolean on a string and on a number. *)
Definition truthyStr (s : string) : bool := negb (String.eqb s "").
Definition truthyNum (n : Z) : bool := negb (n =? 0).

Fixpoint assoc {A : Type} (k : string) (l : list (string * A)) : option A :=
  match l with
  | [] => None
  | (k', v) :: rest => if String.eqb k k' then Some v else assoc k rest
  end.

(** [v.k]: reading a property off [null] throws, off a primitive or an
    array (for the keys used here) yields [undefined]. *)
Definition getProp (v : Json) (k : string) : Outcome JsVal :=
  match v with
  | JNull => Throw (TypeError "Cannot read properties of null")
  | JObj fields => Return (assoc k fields)
  | _ => Return None
  end.

(** [String.prototype.toLowerCase] on the ASCII range. *)
Definition lowerAscii (c : ascii) : ascii :=
  let n := nat_of_ascii c in
  if ((65 <=? n) && (n <=? 90))%nat then ascii_of_nat (n + 32) else c.

Fixpoint toLowerCase (s : string) : string :=
  match s with
  | EmptyString => EmptyString
  | String c rest => String (lowerAscii c) (toLowerCase rest)
  end.

(** [Number.prototype.toString] on an integer. *)
Definition numToString (n : Z) : string := pretty n.

Definition hexDigit (upper : bool) (n : nat) : ascii :=
  if (n <? 10)%nat then ascii_of_nat (48 + n)
  else ascii_of_nat ((if upper then 55 else 87) + n).

Definition hex2 (upper : bool) (n : nat) : string :=
  String (hexDigit upper (n / 16)) (String (hexDigit upper (n mod 16)) EmptyString).

Definition dquote : ascii := ascii_of_nat 34.
Definition backslash : ascii := ascii_of_nat 92.

(** The escape [JSON.stringify] applies to one code unit of a string. *)
Definition jsonEscape (c : ascii) : string :=
  let n := nat_of_ascii c in
  if (n =? 34)%nat then String backslash (String dquote EmptyString)
  else if (n =? 92)%nat then String backslash (String backslash EmptyString)
  else if (n =? 8)%nat then String backslash "b"
  else if (n =? 12)%nat then String backslash "f"
  else if (n =? 10)%nat then String backslash "n"
  else if (n =? 13)%nat then String backslash "r"
  else if (n =? 9)%nat then String backslash "t"
  else if (n <? 32)%nat then String backslash ("u00" +:+ hex2 false n)
  else String c EmptyString.

Fixpoint jsonEscapeAll (s : string) : string :=
  match s with
  | EmptyString => EmptyString
  | String c rest => jsonEscape c +:+ jsonEscapeAll rest
  end.

Definition jsonQuote (s : string) : string :=
  String dquote (jsonEscapeAll s +:+ String dquote EmptyString).

(** [JSON.stringify] (no indentation). *)
Fixpoint stringify (j : Json) : string :=
  match j with
  | JNull => "null"
  | JBool true => "true"
  | JBool false => "false"
  | JNum n => numToString n
  | JStr s => jsonQuote s
  | JArr items => "[" +:+ String.concat "," (map stringify items) +:+ "]"
  | JObj fields =>
      "{" +:+ String.concat ","
                (map (fun kv => match kv with
                                | (k, v) => jsonQuote k +:+ ":" +:+ stringify v
                                end) fields) +:+ "}"
  end.

Fixpoint hasKey {A : Type} (k : string) (l : list (string * A)) : bool :=
  match l with
  | [] => false
  | (k', _) :: rest => String.eqb k k' || hasKey k rest
  end.

(** All the texts, joined by [sep]; [None] as soon as one is missing. *)
Fixpoint joinTexts (sep : string) (texts : list (option string)) : option string :=
  match texts with
  | [] => Some ""
  | [t] => t
  | t :: rest =>
      match t, joinTexts sep rest with
      | Some a, Some b => Some (a +:+ sep +:+ b)
      | _, _ => None
      end
  end.

(** [v.toString()] on a value that came out of JSON; [None] is a
    [TypeError].  [null] has no methods; an array joins the texts of its
    elements with commas, [null] counting as the empty text; an object is
    ["[object Object]"] unless it has an own property called [toString],
    which, coming from JSON, is not a function. *)
Fixpoint toStringOf (j : Json) : option string :=
  match j with
  | JNull => None
  | JBool true => Some "true"
  | JBool false => Some "false"
  | JNum n => Some (numToString n)
  | JStr s => Some s
  | JArr items =>
      joinTexts "," (map (fun item => match item with
                                      | JNull => Some ""
                                      | _ => toStringOf item
                                      end) items)
  | JObj fields => if hasKey "toString" fields then None else Some "[object Object]"
  end.

(** [String(v)], the conversion [new Error(v)] applies to its argument. *)
Definition toText (j : Json) : option string :=
  match j with
  | JNull => Some "null"
  | _ => toStringOf j
  end.

(** What [throw new Error(argument)] throws: the message is the empty text
    for [undefined] and the text of the argument otherwise; when the
    argument has no text the conversion itself throws. *)
Definition newError (argument : JsVal) : Exn :=
  match argument with
  | None => Error ""
  | Some j =>
      match toText j with
      | Some text => Error text
      | None => TypeError "Cannot convert object to primitive value"
      end
  end.

(** What is passed to [console.log] and [console.error]. *)
Inductive ConsoleArg : Type :=
| Text (s : string)
| Caught (e : Exn).

Inductive ConsoleCall : Type :=
| ConsoleLog (args : list ConsoleArg)
| ConsoleError (args : list ConsoleArg).

(** The application/x-www-form-urlencoded byte serializer used by
    [URLSearchParams.prototype.toString]. *)
Definition formEncodeByte (c : ascii) : string :=
  let n := nat_of_ascii c in
  if (n =? 32)%nat then "+"
  else if ((n =? 42) || (n =? 45) || (n =? 46) || (n =? 95)
           || ((48 <=? n) && (n <=? 57))
           || ((65 <=? n) && (n <=? 90))
           || ((97 <=? n) && (n <=? 122)))%nat
       then String c EmptyString
       else "%" +:+ hex2 true n.

Fixpoint formEncode (s : string) : string :=
  match s with
  | EmptyString => EmptyString
  | String c rest => formEncodeByte c +:+ formEncode rest
  end.

(** [URLSearchParams]: an ordered list of name/value pairs. *)
Definition URLSearchParams : Type := list (string * string).

Definition newURLSearchParams : URLSearchParams := [].

Fixpoint dropName (name : string) (l : URLSearchParams) : URLSearchParams :=
  match l with
  | [] => []
  | (k, v) :: rest =>
      if String.eqb k name then dropName name rest else (k, v) :: dropName name rest
  end.

(** [searchParams.set(name, value)]: overwrite the first pair called [name]
    and drop the others, or append. *)
Fixpoint set (l : URLSearchParams) (name value : string) : URLSearchParams :=
  match l with
  | [] => [(name, value)]
  | (k, v) :: rest =>
      if String.eqb k name then (k, value) :: dropName name rest
      else (k, v) :: set rest name value
  end.

Definition paramsToString (l : URLSearchParams) : string :=
  String.concat "&" (map (fun kv => formEncode (fst kv) +:+ "=" +:+ formEncode (snd kv)) l).

Definition names (l : URLSearchParams) : list string := map fst l.

End Js.

Export Js.

(* ===================================================================== *)
(** ** The browser: network, storage, console, and the monad of effects *)
(* ===================================================================== *)

Module Browser.

Record Request : Type := mkRequest {
  url : string;
  method : string;
  headers : list (string * string);
  requestBody : option string
}.

Definition GET (u : string) : Request := mkRequest u "GET" [] None.

(** An HTTP response as the clients look at it: [status] decides
    [response.ok]; [body] is what [response.json()] resolves to, [None] when
    the body is not JSON and the promise rejects. *)
Record Response : Type := mkResponse {
  status : Z;
  body : option Json
}.

Definition ok (r : Response) : bool := (200 <=? status r) && (status r <=? 299).

(** What [fetch] settles to: a rejection (no response at all) or a
    response, whatever its status. *)
Inductive FetchResult : Type :=
| NetworkFailure
| HttpResponse (r : Response).

(** A transaction and a block of the ledger
    ([src/components/settings-dropdown.tsx], lines 58-85).  A stored
    transaction is the object [createTransaction] builds: its properties by
    name, a property holding [undefined] being [Some None]. *)
Definition TransactionMetadata : Type := list (string * Json).

Definition Transaction : Type := gmap string JsVal.

Record Block : Type := mkBlock {
  height : Z;
  hash : string;
  timestamp : string;
  previousHash : string;
  merkleRoot : string;
  transactions_of : list string;
  validator : string;
  gasUsed : Z;
  gasLimit : Z;
  difficulty : Z;
  nonce : Z;
  size : Z
}.

(** The fields of a [BlockchainClient] object. *)
Record BlockchainClient : Type := mkClient {
  baseUrl : string;
  blocks : list Block;
  transactions : list Transaction
}.

(** Everything a method call can read or change.  [server n req] is the
    network's answer to [req] when it is the [n]-th request issued;
    [sent] logs the requests issued so far, oldest first; [mathRandom n] is
    the text of the [n]-th [Math.random().toString(36)]; [entropy n] feeds the
    [n]-th [Wallet.createRandom()]; [this] is the client object the methods
    run on. *)
Record World : Type := mkWorld {
  server : nat -> Request -> FetchResult;
  sent : list Request;
  mathRandom : nat -> string;
  randomCalls : nat;
  entropy : nat -> string;
  entropyCalls : nat;
  dateNow : Z;
  console : list ConsoleCall;
  localStorage : gmap string string;
  this : BlockchainClient
}.

Definition M (A : Type) : Type := World -> Outcome A * World.

Definition ret {A : Type} (a : A) : M A := fun w => (Return a, w).

Definition throw {A : Type} (e : Exn) : M A := fun w => (Throw e, w).

Definition bind {A B : Type} (m : M A) (k : A -> M B) : M B :=
  fun w =>
    match m w with
    | (Return a, w') => k a w'
    | (Throw e, w') => (Throw e, w')
    end.

(** [try { body } catch (error) { handler(error) }]. *)
Definition tryCatch {A : Type} (body : M A) (handler : Exn -> M A) : M A :=
  fun w =>
    match body w with
    | (Return a, w') => (Return a, w')
    | (Throw e, w') => handler e w'
    end.

Definition lift {A : Type} (o : Outcome A) : M A := fun w => (o, w).

Definition get {A : Type} (f : World -> A) : M A := fun w => (Return (f w), w).

Definition modify (f : World -> World) : M unit := fun w => (Return tt, f w).

Definition with_sent (w : World) (l : list Request) : World :=
  mkWorld (server w) l (mathRandom w) (randomCalls w) (entropy w) (entropyCalls w)
          (dateNow w) (console w) (localStorage w) (this w).

Definition with_randomCalls (w : World) (n : nat) : World :=
  mkWorld (server w) (sent w) (mathRandom w) n (entropy w) (entropyCalls w)
          (dateNow w) (console w) (localStorage w) (this w).

Definition with_entropyCalls (w : World) (n : nat) : World :=
  mkWorld (server w) (sent w) (mathRandom w) (randomCalls w) (entropy w) n
          (dateNow w) (console w) (localStorage w) (this w).

Definition with_console (w : World) (l : list ConsoleCall) : World :=
  mkWorld (server w) (sent w) (mathRandom w) (randomCalls w) (entropy w) (entropyCalls w)
          (dateNow w) l (localStorage w) (this w).

Definition with_localStorage (w : World) (s : gmap string string) : World :=
  mkWorld (server w) (sent w) (mathRandom w) (randomCalls w) (entropy w) (entropyCalls w)
          (dateNow w) (console w) s (this w).

Definition with_this (w : World) (c : BlockchainClient) : World :=
  mkWorld (server w) (sent w) (mathRandom w) (randomCalls w) (entropy w) (entropyCalls w)
          (dateNow w) (console w) (localStorage w) c.

(** [await fetch(url, init)]: the request goes out (and is logged) whatever
    the answer is. *)
Definition fetch (req : Request) : M Response :=
  fun w =>
    let w' := with_sent w (sent w ++ [req]) in
    match server w (length (sent w)) req with
    | NetworkFailure => (Throw (TypeError "Failed to fetch"), w')
    | HttpResponse r => (Return r, w')
    end.

(** [await response.json()]. *)
Definition json (r : Response) : M Json :=
  match body r with
  | Some j => ret j
  | None => throw (SyntaxError "Unexpected token in JSON")
  end.

Definition consoleLog (args : list ConsoleArg) : M unit :=
  modify (fun w => with_console w (console w ++ [ConsoleLog args])).

Definition consoleError (args : list ConsoleArg) : M unit :=
  modify (fun w => with_console w (console w ++ [ConsoleError args])).

(** [Math.random().toString(36)]. *)
Definition mathRandom36 : M string :=
  fun w => (Return (mathRandom w (randomCalls w)), with_randomCalls w (S (randomCalls w))).

Definition getItem (key : string) : M (option string) :=
  get (fun w => localStorage w !! key).

Definition setItem (key value : string) : M unit :=
  modify (fun w => with_localStorage w (<[key := value]> (localStorage w))).

End Browser.

Export Browser.

Declare Scope js_scope.
Delimit Scope js_scope with js.
Notation "'do' x <- m ; k" := (bind m (fun x => k))
  (at level 10, x name, m at level 100, k at level 200) : js_scope.
Notation "'do_' m ; k" := (bind m (fun _ => k))
  (at level 10, m at level 100, k at level 200) : js_scope.
Open Scope js_scope.

(* ===================================================================== *)
(** ** The ethers library, as the code uses it *)
(* ===================================================================== *)

Record Wallet : Type := mkWallet {
  privateKey : string;
  address : string
}.

(** The four entry points of [ethers] the repository calls.  A [None] is a
    call that throws. *)
Class Ethers : Type := {
  (** [ethers.verifyMessage(message, signature)], on whatever value the
      caller passes as signature *)
  verifyMessage : string -> JsVal -> option string;
  (** [ethers.id(text)] *)
  id : string -> string;
  (** [new ethers.Wallet(privateKey)] *)
  newWallet : string -> option Wallet;
  (** [ethers.Wallet.createRandom()], from the entropy it draws *)
  createRandom : string -> Wallet
}.

(* ===================================================================== *)
(** ** [NASADebrisClient]  (src/unnamed/part_001, lines 48-80) *)
(* ===================================================================== *)

Module NASADebrisClient.

Record Params : Type := mkParams {
  altitude : option (Z * Z);
  size : option (Z * Z);
  limit : option Z;
  type : option (list string)
}.

(** The [URLSearchParams] built at lines 55-61. *)
Definition searchParamsOf (params : option Params) : URLSearchParams :=
  let searchParams := newURLSearchParams in
  let searchParams :=
    match params ≫= limit with
    | Some l => if truthyNum l then set searchParams "limit" (numToString l) else searchParams
    | None => searchParams
    end in
  let searchParams :=
    match params ≫= altitude with
    | Some (lo, hi) =>
        set (set searchParams "altitudeMin" (numToString lo)) "altitudeMax" (numToString hi)
    | None => searchParams
    end in
  searchParams.

Definition requestOf (params : option Params) : Request :=
  GET ("/api/nasa/debris?" +:+ paramsToString (searchParamsOf params)).

Definition getDebrisData (params : option Params) : M Json :=
  do response <- fetch (requestOf params);
  if negb (ok response)
  then throw (Error "Failed to fetch debris data")
  else json response.

Definition getDebrisStatistics : M Json :=
  do response <- fetch (GET "/api/nasa/statistics");
  if negb (ok response)
  then throw (Error "Failed to fetch debris statistics")
  else
    do stats <- json response;
    ret stats.

End NASADebrisClient.

(* ===================================================================== *)
(** ** [BlockchainClient]  (src/components/settings-dropdown.tsx, lines 185-347) *)
(* ===================================================================== *)

Module BlockchainClient.

(** [new BlockchainClient(baseUrl)]: both private arrays start empty. *)
Definition constructor (baseUrl : option string) : M unit :=
  modify (fun w => with_this w (mkClient (default "/api/blockchain" baseUrl) [] [])).

(** The [{ success, data, total, error }] envelope is read field by field off
    whatever [response.json()] produced. *)
Record DataTotal : Type := mkDataTotal {
  data : JsVal;
  total : JsVal
}.

(** Lines 212-216, 277-281 and 300-304. *)
Definition unwrapDataTotal (result : Json) : M DataTotal :=
  do success <- lift (getProp result "success");
  if negb (truthyVal success)
  then
    do error <- lift (getProp result "error");
    throw (newError error)
  else
    do data <- lift (getProp result "data");
    do total <- lift (getProp result "total");
    ret (mkDataTotal data total).

(** Lines 326-330 and 341-345. *)
Definition unwrapData (result : Json) : M JsVal :=
  do success <- lift (getProp result "success");
  if negb (truthyVal success)
  then
    do error <- lift (getProp result "error");
    throw (newError error)
  else lift (getProp result "data").

Definition setIfStr (v : option string) (name : string) (sp : URLSearchParams)
  : URLSearchParams :=
  match v with
  | Some s => if truthyStr s then set sp name s else sp
  | None => sp
  end.

Definition setIfNum (v : option Z) (name : string) (sp : URLSearchParams)
  : URLSearchParams :=
  match v with
  | Some n => if truthyNum n then set sp name (numToString n) else sp
  | None => sp
  end.

Record TransactionsParams : Type := mkTransactionsParams {
  tp_type : option string;
  tp_status : option string;
  tp_limit : option Z
}.

Definition transactionsSearchParams (params : option TransactionsParams) : URLSearchParams :=
  let searchParams := newURLSearchParams in
  let searchParams := setIfStr (params ≫= tp_type) "type" searchParams in
  let searchParams := setIfStr (params ≫= tp_status) "status" searchParams in
  let searchParams := setIfNum (params ≫= tp_limit) "limit" searchParams in
  searchParams.

Definition transactionsRequest (base : string) (params : option TransactionsParams) : Request :=
  GET (base +:+ "/transactions?" +:+ paramsToString (transactionsSearchParams params)).

Definition getTransactions (params : option TransactionsParams) : M DataTotal :=
  do self <- get this;
  do response <- fetch (transactionsRequest (baseUrl self) params);
  do result <- json response;
  unwrapDataTotal result.

Record BlocksParams : Type := mkBlocksParams {
  bp_limit : option Z;
  bp_height : option Z
}.

Definition blocksSearchParams (params : option BlocksParams) : URLSearchParams :=
  let searchParams := newURLSearchParams in
  let searchParams := setIfNum (params ≫= bp_limit) "limit" searchParams in
  let searchParams := setIfNum (params ≫= bp_height) "height" searchParams in
  searchParams.

Definition blocksRequest (base : string) (params : option BlocksParams) : Request :=
  GET (base +:+ "/blocks?" +:+ paramsToString (blocksSearchParams params)).

Definition getBlocks (params : option BlocksParams) : M DataTotal :=
  do self <- get this;
  do response <- fetch (blocksRequest (baseUrl self) params);
  do result <- json response;
  unwrapDataTotal result.

Record ContractsParams : Type := mkContractsParams {
  cp_type : option string;
  cp_address : option string
}.

Definition contractsSearchParams (params : option ContractsParams) : URLSearchParams :=
  let searchParams := newURLSearchParams in
  let searchParams := setIfStr (params ≫= cp_type) "type" searchParams in
  let searchParams := setIfStr (params ≫= cp_address) "address" searchParams in
  searchParams.

Definition getSmartContracts (params : option ContractsParams) : M DataTotal :=
  do self <- get this;
  do response <-
    fetch (GET (baseUrl self +:+ "/smart-contracts?"
                +:+ paramsToString (contractsSearchParams params)));
  do result <- json response;
  unwrapDataTotal result.

(** The argument of [executeContract] is the caller's object: its own
    properties in the order [JSON.stringify] visits them, which for the
    names of the parameter type ([contractAddress], [functionName],
    [parameters]) is the order the caller wrote them in. *)
Definition ExecuteParams : Type := list (string * Json).

Definition executeContract (params : ExecuteParams) : M JsVal :=
  do self <- get this;
  do response <-
    fetch (mkRequest (baseUrl self +:+ "/smart-contracts") "POST"
                     [("Content-Type", "application/json")]
                     (Some (stringify (JObj params))));
  do result <- json response;
  unwrapData result.

Definition getAnalytics (timeframe : option string) : M JsVal :=
  let timeframe := default "7d" timeframe in
  do self <- get this;
  do response <- fetch (GET (baseUrl self +:+ "/analytics?timeframe=" +:+ timeframe));
  do result <- json response;
  unwrapData result.

(** *** [createTransaction]  (lines 220-259) *)

(** The argument is the caller's object: its own properties in the order
    the rest pattern and [JSON.stringify] visit them, which for names that
    are not array indices is the order the caller wrote them in; each name
    occurs once.  The parameter type asks for [type], [data], [from], [to],
    [timestamp] and [signature]; what the code does when one is missing, of
    another kind, or joined by further properties is part of the model. *)
Definition TxData : Type := list (string * Json).

(** [const { name, ...rest } = object]: the properties other than [name],
    in the same order. *)
Fixpoint restWithout (name : string) (object : list (string * Json))
  : list (string * Json) :=
  match object with
  | [] => []
  | (k, v) :: more =>
      if String.eqb k name then restWithout name more
      else (k, v) :: restWithout name more
  end.

(** [a[i]] on an array: [undefined] outside [0 .. length-1]. *)
Definition arrayGet {A : Type} (a : list A) (i : Z) : option A :=
  if i <? 0 then None else nth_error a (Z.to_nat i).

(** [ethers.verifyMessage] as a computation: a [None] is a throw. *)
Definition verifyMessageM `{Ethers} (message : string) (signature : JsVal) : M string :=
  match verifyMessage message signature with
  | Some signerAddress => ret signerAddress
  | None => throw (LibraryError "invalid signature")
  end.

(** [v.toLowerCase()] on a property value: only a string has the method. *)
Definition callToLowerCase (v : JsVal) : Outcome string :=
  match v with
  | Some (JStr s) => Return (toLowerCase s)
  | None => Throw (TypeError "Cannot read properties of undefined (reading 'toLowerCase')")
  | Some JNull => Throw (TypeError "Cannot read properties of null (reading 'toLowerCase')")
  | Some _ => Throw (TypeError "payload.from.toLowerCase is not a function")
  end.

(** [v.toString()] on a property value. *)
Definition callToString (v : JsVal) : Outcome string :=
  match v with
  | None => Throw (TypeError "Cannot read properties of undefined (reading 'toString')")
  | Some JNull => Throw (TypeError "Cannot read properties of null (reading 'toString')")
  | Some j =>
      match toStringOf j with
      | Some text => Return text
      | None => Throw (TypeError "payload.timestamp.toString is not a function")
      end
  end.

(** Lines 232-242: the [try]/[catch] around signature verification;
    [from] is [payload.from]. *)
Definition verifySignature `{Ethers} (message : string) (signature from : JsVal) : M unit :=
  tryCatch
    (do signerAddress <- verifyMessageM message signature;
     do declared <- lift (callToLowerCase from);
     if negb (String.eqb (toLowerCase signerAddress) declared)
     then throw (Error "Signature is invalid or does not match the sender's address.")
     else ret tt)
    (fun error =>
       do_ consoleError [Text "Signature verification failed:"; Caught error];
       throw (Error "Invalid signature.")).

Record CreateResult : Type := mkCreateResult { success : bool }.

(** An object literal, property by property: a later property of the same
    name replaces the earlier value. *)
Definition objectLiteral (properties : list (string * JsVal)) : gmap string JsVal :=
  fold_left (fun object kv => <[fst kv := snd kv]> object) properties ∅.

(** [...payload] inside an object literal. *)
Definition spread (payload : list (string * Json)) : list (string * JsVal) :=
  map (fun kv => (fst kv, Some (snd kv))) payload.

Definition createTransaction `{Ethers} (txData : TxData) : M CreateResult :=
  let signature := assoc "signature" txData in
  let payload := restWithout "signature" txData in
  let message := stringify (JObj payload) in
  do_ verifySignature message signature (assoc "from" payload);
  do_ consoleLog [Text "âœ… Signature Verified Successfully!"];
  (* the object literal of lines 247-256, property by property *)
  do r <- mathRandom36;
  let id_ := "tx_" +:+ substring 2 8 r in
  do timestamp_ <- lift (callToString (assoc "timestamp" payload));
  do self <- get this;
  match arrayGet (blocks self) (Z.of_nat (length (blocks self)) - 1) with
  | None => throw (TypeError "Cannot read properties of undefined (reading 'height')")
  | Some lastBlock =>
      let blockHeight_ := height lastBlock in
      do now <- get dateNow;
      let hash_ := id (stringify (JObj payload) +:+ numToString now) in
      let newTransaction :=
        objectLiteral
          ([("id", Some (JStr id_))]
           ++ spread payload
           ++ [("timestamp", Some (JStr timestamp_));
               ("status", Some (JStr "confirmed"));
               ("blockHeight", Some (JNum blockHeight_));
               ("hash", Some (JStr hash_));
               ("gasUsed", Some (JNum 21000));
               ("signature", signature)]) in
      do_ modify (fun w =>
            with_this w (mkClient (baseUrl (this w)) (blocks (this w))
                                  (newTransaction :: transactions (this w))));
      ret (mkCreateResult true)
  end.

End BlockchainClient.

(* ===================================================================== *)
(** ** [useWallet]  (src/components/hooks/use-wallet.ts) *)
(* ===================================================================== *)

Module UseWallet.

Definition storageKey : string := "orbital-privateKey".

(** [ethers.Wallet.createRandom()]. *)
Definition createRandomM `{Ethers} : M Wallet :=
  fun w => (Return (createRandom (entropy w (entropyCalls w))),
            with_entropyCalls w (S (entropyCalls w))).

(** [new ethers.Wallet(privateKey)]. *)
Definition newWalletM `{Ethers} (key : string) : M Wallet :=
  match newWallet key with
  | Some wallet => ret wallet
  | None => throw (LibraryError "invalid private key")
  end.

(** [!privateKey] on the result of [localStorage.getItem]. *)
Definition falsyKey (privateKey : option string) : bool :=
  match privateKey with
  | None => true
  | Some s => negb (truthyStr s)
  end.

(** The effect of lines 9-30, run once on mount.  The [wallet] state starts
    as [null]; the result is the state after the effect, which is what the
    hook returns from then on. *)
Definition mountEffect `{Ethers} : M (option Wallet) :=
  let wallet : option Wallet := None in
  do storedKey <- getItem storageKey;
  if falsyKey storedKey
  then
    do newWallet_ <- createRandomM;
    let freshKey := privateKey newWallet_ in
    do_ setItem storageKey freshKey;
    do_ consoleLog [Text "New wallet created. Address:"; Text (address newWallet_)];
    ret (Some newWallet_)
  else
    tryCatch
      (do existingWallet <- newWalletM (default "" storedKey);
       ret (Some existingWallet))
      (fun error =>
         do_ consoleError [Text "Failed to load wallet from private key:"; Caught error];
         ret wallet).

End UseWallet.

(* ===================================================================== *)
(** ** A small instance of the ethers interface, for running examples *)
(* ===================================================================== *)

Module DemoEthers.

(** Sixty-four hexadecimal digits, with or without the [0x] prefix, is what
    the wallet constructor takes for a private key. *)
Definition isHexDigit (c : ascii) : bool :=
  let n := nat_of_ascii c in
  (((48 <=? n) && (n <=? 57)) || ((65 <=? n) && (n <=? 70))
   || ((97 <=? n) && (n <=? 102)))%nat.

Fixpoint allHex (s : string) : bool :=
  match s with
  | EmptyString => true
  | String c rest => isHexDigit c && allHex rest
  end.

Definition strip0x (s : string) : string :=
  if String.prefix "0x" s then substring 2 (String.length s - 2) s else s.

Definition validKey (s : string) : bool :=
  let digits := strip0x s in
  (String.length digits =? 64)%nat && allHex digits.

(** A stand-in for address derivation: the last forty digits of the key. *)
Definition addressOf (key : string) : string :=
  "0x" +:+ substring 24 40 (strip0x key).

Definition walletOf (key : string) : Wallet :=
  mkWallet ("0x" +:+ strip0x key) (addressOf key).

(** A stand-in signature scheme: the signature of [message] under [key] is
    the message followed by the signer's address. *)
Definition signMessage (key message : string) : string :=
  (message +:+ "|") +:+ addressOf key.

Fixpoint stripPrefix (p s : string) : option string :=
  match p with
  | EmptyString => Some s
  | String c p' =>
      match s with
      | String d s' => if Ascii.eqb c d then stripPrefix p' s' else None
      | EmptyString => None
      end
  end.

Definition demoVerify (message : string) (signature : JsVal) : option string :=
  match signature with
  | Some (JStr text) => stripPrefix (message +:+ "|") text
  | _ => None
  end.

#[export] Instance demo : Ethers := {
  verifyMessage := demoVerify;
  id := fun text => "0x" +:+ text;
  newWallet := fun key => if validKey key then Some (walletOf key) else None;
  createRandom := fun seed => walletOf seed
}.

Definition aliceKey : string :=
  "0x00000000000000000000000000000000000000000000000000000000000A11CE".

Definition noResponse : nat -> Request -> FetchResult := fun _ _ => NetworkFailure.

(** A browser with empty storage, no requests sent, and a freshly
    constructed client. *)
Definition freshWorld (srv : nat -> Request -> FetchResult) : World :=
  mkWorld srv [] (fun _ => "0.4fzyo82mvyr") 0%nat (fun _ => aliceKey) 0%nat
          1700000000000 [] ∅ (mkClient "/api/blockchain" [] []).

(** A submission whose signature is the empty string, and the same
    submission signed with the sender's key over the text of its payload. *)
Definition aliceAddress : string := addressOf aliceKey.

Definition demoPayload : list (string * Json) :=
  [("type", JStr "debris_capture");
   ("data", JObj [("quantity", JNum 3)]);
   ("from", JStr (toLowerCase aliceAddress));
   ("to", JStr "0xB0B");
   ("timestamp", JNum 1700000000000)].

Definition unsignedTx : BlockchainClient.TxData :=
  (demoPayload ++ [("signature", JStr "")])%list.

Definition signedTx : BlockchainClient.TxData :=
  (demoPayload
   ++ [("signature", JStr (signMessage aliceKey (stringify (JObj demoPayload))))])%list.

(** The same submission written by a caller who puts the signature first
    and the other properties in another order, signed over the text of that
    payload; and one in that order carrying the signature made over
    [demoPayload]'s text. *)
Definition shuffledPayload : list (string * Json) :=
  [("timestamp", JNum 1700000000000);
   ("from", JStr (toLowerCase aliceAddress));
   ("to", JStr "0xB0B");
   ("type", JStr "debris_capture");
   ("data", JObj [("quantity", JNum 3)])].

Definition shuffledSignedTx : BlockchainClient.TxData :=
  ("signature", JStr (signMessage aliceKey (stringify (JObj shuffledPayload))))
  :: shuffledPayload.

Definition shuffledWithOtherTextSigned : BlockchainClient.TxData :=
  ("signature", JStr (signMessage aliceKey (stringify (JObj demoPayload))))
  :: shuffledPayload.

(** A server that answers every request with the same response. *)
Definition always (r : Response) : nat -> Request -> FetchResult :=
  fun _ _ => HttpResponse r.

(** HTTP 500 whose body nevertheless says [success: true]. *)
Definition failedButSuccess : Response :=
  mkResponse 500 (Some (JObj [("success", JBool true); ("data", JArr []);
                              ("total", JNum 0)])).

(** HTTP 200 whose body says [success: false]. *)
Definition okButFailure : Response :=
  mkResponse 200 (Some (JObj [("success", JBool false); ("error", JStr "boom")])).

(** HTTP 200 whose body has neither [success] nor [error]. *)
Definition okWithoutSuccess : Response :=
  mkResponse 200 (Some (JObj [("data", JArr [])])).

Definition blockJson (b : Block) : Json :=
  JObj [("height", JNum (height b)); ("hash", JStr (hash b));
        ("timestamp", JStr (timestamp b)); ("previousHash", JStr (previousHash b));
        ("merkleRoot", JStr (merkleRoot b));
        ("transactions", JArr (map JStr (transactions_of b)));
        ("validator", JStr (validator b)); ("gasUsed", JNum (gasUsed b));
        ("gasLimit", JNum (gasLimit b)); ("difficulty", JNum (difficulty b));
        ("nonce", JNum (nonce b)); ("size", JNum (size b))].

(** Two blocks that do not chain: the second's [previousHash] is not the
    first's [hash], and heights, Merkle roots and nonces are arbitrary. *)
Definition unchained : list Block :=
  [mkBlock 7 "0xaaa" "t0" "0x000" "0xm1" ["tx1"] "v" 1 2 3 (-1) 10;
   mkBlock 3 "0xbbb" "t1" "0xdead" "" [] "v" 1 2 3 0 10].

Definition unchainedResponse : Response :=
  mkResponse 200 (Some (JObj [("success", JBool true);
                              ("data", JArr (map blockJson unchained));
                              ("total", JNum 2)])).

Definition withStored (value : string) : World :=
  with_localStorage (freshWorld noResponse) {[ UseWallet.storageKey := value ]}.

End DemoEthers.

(* ===================================================================== *)
(** ** The 3D scene: [useFrame] callbacks  (src/unnamed/part_000) *)
(* ===================================================================== *)

(** Numbers of the scene are real numbers: [Math.sin], [Math.cos] and
    [Math.floor] are [sin], [cos] and the integer part.  A ref is an
    [option]: [None] is a ref whose [current] is [null]. *)
Module Scene.

Local Open Scope R_scope.

Record Vec3 : Type := mkVec3 { x : R; y : R; z : R }.

Definition setX (v : Vec3) (a : R) : Vec3 := mkVec3 a (y v) (z v).
Definition setY (v : Vec3) (a : R) : Vec3 := mkVec3 (x v) a (z v).
Definition setZ (v : Vec3) (a : R) : Vec3 := mkVec3 (x v) (y v) a.

Inductive Material : Type :=
| MeshStandardMaterial (emissiveIntensity : R)
| MeshPhysicalMaterial (emissiveIntensity : R)
| MeshBasicMaterial.

Inductive MeshMaterial : Type :=
| OneMaterial (m : Material)
| MaterialArray (ms : list Material).

(** A [THREE.Group] or any other [Object3D]: the transform only. *)
Record Object3D : Type := mkObject3D {
  o_position : Vec3;
  o_rotation : Vec3;
  o_scale : Vec3
}.

Record Mesh : Type := mkMesh {
  position : Vec3;
  rotation : Vec3;
  scale : Vec3;
  material : MeshMaterial
}.

Definition withPosition (m : Mesh) (v : Vec3) : Mesh :=
  mkMesh v (rotation m) (scale m) (material m).
Definition withRotation (m : Mesh) (v : Vec3) : Mesh :=
  mkMesh (position m) v (scale m) (material m).
Definition withScale (m : Mesh) (v : Vec3) : Mesh :=
  mkMesh (position m) (rotation m) v (material m).
Definition withMaterial (m : Mesh) (mat : MeshMaterial) : Mesh :=
  mkMesh (position m) (rotation m) (scale m) mat.

Definition withORotation (o : Object3D) (v : Vec3) : Object3D :=
  mkObject3D (o_position o) v (o_scale o).
Definition withOPosition (o : Object3D) (v : Vec3) : Object3D :=
  mkObject3D v (o_rotation o) (o_scale o).

(** [scale.setScalar(s)]. *)
Definition setScalar (m : Mesh) (s : R) : Mesh := withScale m (mkVec3 s s s).

(** Lines 26-30. *)
Definition isEmissiveMaterial (m : Material) : bool :=
  match m with
  | MeshStandardMaterial _ | MeshPhysicalMaterial _ => true
  | MeshBasicMaterial => false
  end.

Definition setEmissiveIntensity (m : Material) (intensity : R) : Material :=
  match m with
  | MeshStandardMaterial _ => MeshStandardMaterial intensity
  | MeshPhysicalMaterial _ => MeshPhysicalMaterial intensity
  | MeshBasicMaterial => MeshBasicMaterial
  end.

(** Lines 32-45. *)
Definition applyEmissiveIntensity (mesh : option Mesh) (intensity : R) : option Mesh :=
  match mesh with
  | None => None
  | Some mesh =>
      match material mesh with
      | MaterialArray ms =>
          Some (withMaterial mesh
                  (MaterialArray
                     (map (fun childMaterial =>
                             if isEmissiveMaterial childMaterial
                             then setEmissiveIntensity childMaterial intensity
                             else childMaterial) ms)))
      | OneMaterial m =>
          if isEmissiveMaterial m
          then Some (withMaterial mesh (OneMaterial (setEmissiveIntensity m intensity)))
          else Some mesh
      end
  end.

(** [ref.current] is not [null]. *)
Definition mounted {A : Type} (ref : option A) : bool :=
  match ref with Some _ => true | None => false end.

Definition floor (a : R) : R := IZR (Int_part a).

(** [a % b], the remainder of the division truncated towards zero. *)
Definition truncate (a : R) : Z :=
  if Rle_dec 0 a then Int_part a else (- Int_part (- a))%Z.
Definition remainder (a b : R) : R := a - b * IZR (truncate (a / b)).

(** [Math.round]. *)
Definition round (a : R) : R := floor (a + 0.5).

(** [a !== b] on numbers. *)
Definition neq (a b : R) : bool := if Req_dec_T a b then false else true.

(** [a > b] on numbers. *)
Definition gt (a b : R) : bool := if Rlt_dec b a then true else false.

(** *** [RoboticArm]  (lines 47-168) *)

Record RoboticArm : Type := mkRoboticArm {
  ra_armRef : option Object3D;
  ra_joint1Ref : option Mesh;
  ra_joint2Ref : option Mesh;
  ra_effectorRef : option Mesh;
  ra_animationPhaseRef : R;
  ra_activityProgress : R;
  ra_lastHudProgressRef : R
}.

(** Line 60: the phase is drawn once, from [Math.random()], and kept. *)
Definition animationPhase (random : R) : R := random * PI * 2.

(** Lines 64-98. *)
Definition RoboticArm_frame (isActive : bool) (time : R) (s : RoboticArm) : RoboticArm :=
  let phase := ra_animationPhaseRef s in
  if negb isActive then
    if neq (ra_lastHudProgressRef s) 0
    then mkRoboticArm (ra_armRef s) (ra_joint1Ref s) (ra_joint2Ref s) (ra_effectorRef s)
                      (ra_animationPhaseRef s) 0 0
    else s
  else
    let armRef :=
      (fun arm => withORotation arm (setY (o_rotation arm) (sin (time * 0.4 + phase) * 0.5)))
        <$> ra_armRef s in
    let joint1Ref :=
      (fun j => withRotation j (setZ (rotation j) (cos (time * 0.6 + phase) * 0.3)))
        <$> ra_joint1Ref s in
    let joint2Ref :=
      (fun j => withRotation j (setX (rotation j) (sin (time * 0.8 + phase) * 0.4)))
        <$> ra_joint2Ref s in
    let effectorRef :=
      applyEmissiveIntensity
        ((fun e => withScale e (setX (scale e) (1 + sin (time * 2 + phase) * 0.2)))
           <$> ra_effectorRef s)
        (0.3 + sin (time * 3 + phase) * 0.2) in
    let hudProgress := floor ((sin (time * 0.6 + phase) + 1) * 50) in
    if neq hudProgress (ra_lastHudProgressRef s)
    then mkRoboticArm armRef joint1Ref joint2Ref effectorRef (ra_animationPhaseRef s)
                      hudProgress hudProgress
    else mkRoboticArm armRef joint1Ref joint2Ref effectorRef (ra_animationPhaseRef s)
                      (ra_activityProgress s) (ra_lastHudProgressRef s).

(** Lines 151-165: the HUD shows the progress value while active. *)
Definition RoboticArm_hud (isActive : bool) (s : RoboticArm) : option R :=
  if isActive then Some (ra_activityProgress s) else None.

(** *** [Furnace]  (lines 170-245) *)

Record Furnace : Type := mkFurnace {
  fu_glowRef : option Mesh;
  fu_processingRef : option Mesh;
  fu_outputRef : option Mesh
}.

(** Lines 176-192. *)
Definition Furnace_frame (isActive : bool) (time : R) (s : Furnace) : Furnace :=
  let glowRef :=
    if mounted (fu_glowRef s) && isActive
    then (fun g => setScalar g (1 + sin (time * 2) * 0.05))
           <$> applyEmissiveIntensity (fu_glowRef s) (0.6 + sin (time * 3) * 0.3)
    else fu_glowRef s in
  let processingRef :=
    if mounted (fu_processingRef s) && isActive
    then applyEmissiveIntensity
           ((fun p => withRotation p (setY (rotation p) (y (rotation p) + 0.03)))
              <$> fu_processingRef s)
           (0.3 + sin (time * 4) * 0.2)
    else fu_processingRef s in
  let outputRef :=
    if mounted (fu_outputRef s) && isActive
    then (fun o => withPosition o (setY (position o) (0.1 + sin (time * 1.5) * 0.02)))
           <$> fu_outputRef s
    else fu_outputRef s in
  mkFurnace glowRef processingRef outputRef.

(** Lines 230-242: the temperature and output figures of the HUD, from
    [Date.now()] and [Math.random()] at render. *)
Definition Furnace_hud (isActive : bool) (dateNow random : R) : option (R * R) :=
  if isActive
  then Some (1650 + floor (sin (dateNow * 0.01) * 50), floor (random * 50) + 25)
  else None.

(** *** [Printer3D]  (lines 247-359) *)

Record Printer3D : Type := mkPrinter3D {
  pr_extruderRef : option Mesh;
  pr_printObjectRef : option Mesh;
  pr_printProgress : R;
  pr_lastProgressRef : R
}.

(** Lines 260-280. *)
Definition Printer3D_frame (isActive : bool) (time : R) (s : Printer3D) : Printer3D :=
  let extruderRef :=
    if mounted (pr_extruderRef s) && isActive
    then
      let layer := remainder (floor (time * 0.5)) 10 in
      (fun e => withPosition e
                  (setY (setZ (setX (position e) (sin (time * 2) * 0.15))
                              (cos (time * 1.8) * 0.15))
                        (0.3 - layer * 0.02)))
        <$> pr_extruderRef s
    else pr_extruderRef s in
  if mounted (pr_printObjectRef s) && isActive
  then
    let progress := (sin (time * 0.3) + 1) * 0.5 in
    let normalizedProgress := floor (progress * 100) in
    let printObjectRef :=
      (fun o => withPosition (withScale o (setY (scale o) progress))
                             (setY (position o) (-0.05 + progress * 0.05)))
        <$> pr_printObjectRef s in
    if neq normalizedProgress (pr_lastProgressRef s)
    then mkPrinter3D extruderRef printObjectRef normalizedProgress normalizedProgress
    else mkPrinter3D extruderRef printObjectRef (pr_printProgress s) (pr_lastProgressRef s)
  else mkPrinter3D extruderRef (pr_printObjectRef s) (pr_printProgress s)
                   (pr_lastProgressRef s).

(** Lines 342-356. *)
Definition Printer3D_hud (isActive : bool) (s : Printer3D) : option R :=
  if isActive then Some (pr_printProgress s) else None.

(** *** [DebrisCollectionArm]  (lines 361-462) *)

Record DebrisCollectionArm : Type := mkDebrisCollectionArm {
  dc_armRef : option Object3D;
  dc_scannerRef : option Mesh;
  dc_magnetRef : option Mesh;
  dc_debrisRef : option Mesh
}.

(** Lines 375-398. *)
Definition DebrisCollectionArm_frame (isActive : bool) (time : R) (s : DebrisCollectionArm)
  : DebrisCollectionArm :=
  if negb (mounted (dc_armRef s)) || negb isActive then s
  else
    let armRef :=
      (fun arm => withORotation arm (setY (o_rotation arm) (sin (time * 0.3) * 1.2)))
        <$> dc_armRef s in
    let scannerRef :=
      if mounted (dc_scannerRef s)
      then applyEmissiveIntensity
             ((fun sc => withRotation sc (setZ (rotation sc) (z (rotation sc) + 0.05)))
                <$> dc_scannerRef s)
             (0.5 + sin (time * 4) * 0.3)
      else dc_scannerRef s in
    let magnetRef :=
      if mounted (dc_magnetRef s)
      then applyEmissiveIntensity (dc_magnetRef s) (0.3 + sin (time * 2) * 0.2)
      else dc_magnetRef s in
    let debrisRef :=
      (fun d =>
         let d := withPosition d (setY (position d) (-0.2 + sin (time * 0.8) * 0.1)) in
         let d := withRotation d (setX (rotation d) (x (rotation d) + 0.02)) in
         withRotation d (setY (rotation d) (y (rotation d) + 0.01)))
        <$> dc_debrisRef s in
    mkDebrisCollectionArm armRef scannerRef magnetRef debrisRef.

(** Lines 448-459: the object count of the HUD, from [Math.random()]. *)
Definition DebrisCollectionArm_hud (isActive : bool) (random : R) : option R :=
  if isActive then Some (floor (random * 15) + 5) else None.

(** *** [RepairStation]  (lines 464-598) *)

Inductive OperationStatus : Type :=
| op_pending | in_progress | completed | waiting_materials.

Inductive OperationKind : Type := repair | replace | upgrade.

Record RepairOperation : Type := mkRepairOperation {
  op_id : string;
  satelliteName : string;
  operation : OperationKind;
  component : string;
  materialsNeeded : option (list (string * R));
  duration : R;
  progress : R;
  status : OperationStatus
}.

(** [currentOperation?.status === "in-progress"]. *)
Definition inProgress (currentOperation : option RepairOperation) : bool :=
  match currentOperation with
  | Some op => match status op with in_progress => true | _ => false end
  | None => false
  end.

Record RepairStation : Type := mkRepairStation {
  rs_toolRef : option Mesh;
  rs_diagnosticRef : option Mesh;
  rs_repairArmRef : option Mesh;
  rs_sparksRef : option (list Object3D)
}.

(** Lines 497-507, for one spark: [random n] is the [n]-th value
    [Math.random()] returns; the result carries the number of values
    drawn. *)
Definition stepSpark (random : nat -> R) (n : nat) (spark : Object3D) : Object3D * nat :=
  let p := o_position spark in
  let p := setY p (y p + random n * 0.02) in
  let p := setX p (x p + (random (S n) - 0.5) * 0.01) in
  let p := setZ p (z p + (random (S (S n)) - 0.5) * 0.01) in
  let n := S (S (S n)) in
  if gt (y p) 0.5
  then
    let p := setY p 0.2 in
    let p := setX p ((random n - 0.5) * 0.1) in
    let p := setZ p ((random (S n) - 0.5) * 0.1) in
    (withOPosition spark p, S (S n))
  else (withOPosition spark p, n).

Fixpoint stepSparks (random : nat -> R) (n : nat) (sparks : list Object3D)
  : list Object3D * nat :=
  match sparks with
  | [] => ([], n)
  | spark :: rest =>
      let (spark', n') := stepSpark random n spark in
      let (rest', n'') := stepSparks random n' rest in
      (spark' :: rest', n'')
  end.

(** Lines 479-509.  The callback draws from [Math.random()] starting at the
    [n]-th value and returns how far it got. *)
Definition RepairStation_frame (isActive : bool) (currentOperation : option RepairOperation)
    (time : R) (random : nat -> R) (n : nat) (s : RepairStation) : RepairStation * nat :=
  let toolRef :=
    if mounted (rs_toolRef s) && isActive && inProgress currentOperation
    then (fun t =>
            let t := withRotation t (setZ (rotation t) (sin (time * 3) * 0.2)) in
            withPosition t (setY (position t) (0.2 + sin (time * 2) * 0.03)))
           <$> rs_toolRef s
    else rs_toolRef s in
  let repairArmRef :=
    if mounted (rs_repairArmRef s) && isActive && inProgress currentOperation
    then (fun a =>
            let a := withRotation a (setX (rotation a) (sin (time * 1.5) * 0.3)) in
            withPosition a (setZ (position a) (cos (time * 1.2) * 0.05)))
           <$> rs_repairArmRef s
    else rs_repairArmRef s in
  let diagnosticRef :=
    if mounted (rs_diagnosticRef s) && isActive
    then applyEmissiveIntensity (rs_diagnosticRef s) (0.4 + sin (time * 3) * 0.2)
    else rs_diagnosticRef s in
  match rs_sparksRef s with
  | Some sparks =>
      if inProgress currentOperation
      then
        let (sparks', n') := stepSparks random n sparks in
        (mkRepairStation toolRef diagnosticRef repairArmRef (Some sparks'), n')
      else (mkRepairStation toolRef diagnosticRef repairArmRef (Some sparks), n)
  | None => (mkRepairStation toolRef diagnosticRef repairArmRef None, n)
  end.

(** Lines 568-595: the HUD shows the operation's own fields, or standby. *)
Inductive RepairHud : Type :=
| Standby
| Working (target : string) (kind : OperationKind) (part : string) (percent : R).

Definition RepairStation_hud (isActive : bool) (currentOperation : option RepairOperation)
  : option RepairHud :=
  if isActive
  then Some match currentOperation with
            | Some op => Working (satelliteName op) (operation op) (component op)
                                 (round (progress op))
            | None => Standby
            end
  else None.

(** *** The scene as mounted  (JSX of lines 100-166, 194-243, 282-357,
    400-460, 511-596) *)

Definition zero3 : Vec3 := mkVec3 0 0 0.
Definition one3 : Vec3 := mkVec3 1 1 1.

(** A mesh with one [meshStandardMaterial]; where the JSX gives no
    [emissiveIntensity] the material has the library's default, 1. *)
Definition standardMesh (pos : Vec3) (emissiveIntensity : R) : Mesh :=
  mkMesh pos zero3 one3 (OneMaterial (MeshStandardMaterial emissiveIntensity)).

Definition RoboticArm_mount (pos rot : Vec3) (isActive : bool) (random : R) : RoboticArm :=
  mkRoboticArm (Some (mkObject3D pos rot one3))
               (Some (standardMesh (mkVec3 0.15 0.55 0) 1))
               (Some (standardMesh (mkVec3 0.32 0.95 0) 1))
               (Some (standardMesh (mkVec3 0.35 1.0 0) (if isActive then 0.3 else 0)))
               (animationPhase random) 0 0.

Definition Furnace_mount : Furnace :=
  mkFurnace (Some (standardMesh (mkVec3 0 0.2 0) 0.6))
            (Some (standardMesh (mkVec3 0 0.5 0) 1))
            (Some (standardMesh (mkVec3 0 0.65 0) 1)).

Definition Printer3D_mount (isActive : bool) : Printer3D :=
  mkPrinter3D (Some (standardMesh (mkVec3 0 0.3 0) (if isActive then 0.4 else 0)))
              (if isActive then Some (standardMesh (mkVec3 0 (-0.05) 0) 1) else None)
              0 0.

Definition DebrisCollectionArm_mount (pos rot : Vec3) (isActive : bool)
  : DebrisCollectionArm :=
  mkDebrisCollectionArm
    (Some (mkObject3D pos rot one3))
    (Some (standardMesh (mkVec3 0 0.8 0) (if isActive then 0.6 else 0)))
    (Some (standardMesh (mkVec3 0 0.9 0) (if isActive then 0.4 else 0)))
    (if isActive then Some (standardMesh (mkVec3 0 1.1 0) 1) else None).

(** *** What a frame leaves on screen

    For each component, the geometry its callback assigns from the clock,
    with the HUD figure where the callback maintains one; the transforms the
    callbacks advance from their previous value are read separately. *)

Definition RoboticArm_pose (s : RoboticArm)
  : option R * option R * option R * option R * option R :=
  ((fun arm => y (o_rotation arm)) <$> ra_armRef s,
   (fun j => z (rotation j)) <$> ra_joint1Ref s,
   (fun j => x (rotation j)) <$> ra_joint2Ref s,
   (fun e => x (scale e)) <$> ra_effectorRef s,
   RoboticArm_hud true s).

Definition Printer3D_pose (s : Printer3D) : option Vec3 * option (R * R) * option R :=
  (position <$> pr_extruderRef s,
   (fun o => (y (scale o), y (position o))) <$> pr_printObjectRef s,
   Printer3D_hud true s).

Definition Furnace_pose (s : Furnace) : option Vec3 * option R :=
  (scale <$> fu_glowRef s, (fun o => y (position o)) <$> fu_outputRef s).

(** The ring of the furnace: [processingRef.current.rotation.y]. *)
Definition Furnace_ring (s : Furnace) : option R :=
  (fun p => y (rotation p)) <$> fu_processingRef s.

Definition DebrisCollectionArm_pose (s : DebrisCollectionArm) : option R * option R :=
  ((fun arm => y (o_rotation arm)) <$> dc_armRef s,
   (fun d => y (position d)) <$> dc_debrisRef s).

(** The scanner's [rotation.z] and the debris' [rotation.x], [rotation.y]. *)
Definition DebrisCollectionArm_spin (s : DebrisCollectionArm) : option R * option (R * R) :=
  ((fun sc => z (rotation sc)) <$> dc_scannerRef s,
   (fun d => (x (rotation d), y (rotation d))) <$> dc_debrisRef s).

Definition RepairStation_pose (s : RepairStation) : option (R * R) * option (R * R) :=
  ((fun t => (z (rotation t), y (position t))) <$> rs_toolRef s,
   (fun a => (x (rotation a), z (position a))) <$> rs_repairArmRef s).

End Scene.

(* ===================================================================== *)
(** ** Running the clients: results, traces and reachable worlds *)
(* ===================================================================== *)

Module Session.

Import BlockchainClient.

(** What a call settles to, and the world it leaves behind. *)
Definition result {A : Type} (m : M A) (w : World) : Outcome A := fst (m w).
Definition after {A : Type} (m : M A) (w : World) : World := snd (m w).

(** The requests a call issues: what it appends to the log. *)
Definition issued {A : Type} (m : M A) (w : World) : list Request :=
  drop (length (sent w)) (sent (after m w)).

Definition throws {A : Type} (m : M A) (w : World) : Prop :=
  exists e, result m w = Throw e.

(** A computation that leaves a component [f] of the world as it found
    it, however it ends. *)
Definition preserves {T A : Type} (f : World -> T) (m : M A) : Prop :=
  forall w, f (snd (m w)) = f w.

(** A computation that never touches the network. *)
Definition offline {A : Type} (m : M A) : Prop := preserves sent m.

(** The answer the network gives to the next request, if it is [req]. *)
Definition nextAnswer (w : World) (req : Request) : FetchResult :=
  server w (length (sent w)) req.

(** A call of one of the public methods of [BlockchainClient]. *)
Inductive Call : Type :=
| GetTransactions (params : option TransactionsParams)
| CreateTransaction (txData : TxData)
| GetBlocks (params : option BlocksParams)
| GetSmartContracts (params : option ContractsParams)
| ExecuteContract (params : ExecuteParams)
| GetAnalytics (timeframe : option string).

Definition discard {A : Type} (m : M A) : M unit := do_ m; ret tt.

Definition invoke `{Ethers} (c : Call) : M unit :=
  match c with
  | GetTransactions params => discard (getTransactions params)
  | CreateTransaction txData => discard (createTransaction txData)
  | GetBlocks params => discard (getBlocks params)
  | GetSmartContracts params => discard (getSmartContracts params)
  | ExecuteContract params => discard (executeContract params)
  | GetAnalytics timeframe => discard (getAnalytics timeframe)
  end.

(** The worlds a client object can be in: it is constructed, its methods are
    called in any order, and in between the rest of the browser does what it
    likes to everything but the object's private fields. *)
Inductive reachable `{Ethers} : World -> Prop :=
| reach_new (w : World) (base : option string) :
    reachable (after (constructor base) w)
| reach_call (w : World) (c : Call) :
    reachable w -> reachable (after (invoke c) w)
| reach_env (w w' : World) :
    reachable w -> this w' = this w -> reachable w'.

(** The body of a response says "failed": it is not JSON, or it is [null],
    or its [success] property is not truthy. *)
Definition bodyFails (r : Response) : bool :=
  match body r with
  | None => true
  | Some j =>
      match getProp j "success" with
      | Return v => negb (truthyVal v)
      | Throw _ => true
      end
  end.

(** "All fields except the signature", said without the code's own
    helper: the properties whose name is not [signature], in order. *)
Definition exceptSignature (object : list (string * Json)) : list (string * Json) :=
  List.filter (fun kv => negb (String.eqb (fst kv) "signature")) object.

(** The message a submission is verified against: the JSON text of all its
    fields except the signature. *)
Definition signedText (txData : list (string * Json)) : string :=
  stringify (JObj (exceptSignature txData)).

(** The recovered signer does not match the declared sender, or recovery
    throws.  A declared sender that is not a string matches nothing. *)
Definition signerMismatch `{Ethers} (message : string) (signature from : JsVal) : Prop :=
  match verifyMessage message signature with
  | None => True
  | Some signerAddress =>
      forall declared, from = Some (JStr declared) ->
                       toLowerCase signerAddress <> toLowerCase declared
  end.

End Session.

(* ===================================================================== *)
(** ** Utility functions  (src/components/settings-dropdown.tsx, lines 349-375) *)
(* ===================================================================== *)

Module Utilities.

(** The clamping [String.prototype.slice] applies to an index: a negative
    index counts from the end. *)
Definition sliceIndex (len i : Z) : Z :=
  if i <? 0 then Z.max (len + i) 0 else Z.min i len.

(** [s.slice(start, end)]; [None] for an omitted [end]. *)
Definition slice (s : string) (start : Z) (end_ : option Z) : string :=
  let len := Z.of_nat (String.length s) in
  let from := sliceIndex len start in
  let to := match end_ with
            | None => len
            | Some e => sliceIndex len e
            end in
  if to <=? from then ""
  else substring (Z.to_nat from) (Z.to_nat (to - from)) s.

Definition formatTransactionHash (hash : string) : string :=
  slice hash 0 (Some 6) +:+ "..." +:+ slice hash (-4) None.

Definition formatAddress (address : string) : string :=
  slice address 0 (Some 6) +:+ "..." +:+ slice address (-4) None.

(** [a && b] on values: the left operand when it is falsy, else the right. *)
Definition andVal (a b : JsVal) : JsVal := if truthyVal a then b else a.

(** [data.name] on the metadata record. *)
Definition field (data : TransactionMetadata) (name : string) : JsVal := assoc name data.

Definition validateTransactionData (type : string) (data : TransactionMetadata) : bool :=
  if String.eqb type "debris_capture" then
    truthyVal (andVal (andVal (field data "satellite") (field data "debris"))
                      (field data "quantity"))
  else if String.eqb type "material_processing" then
    truthyVal (andVal (field data "material") (field data "quantity"))
  else if String.eqb type "satellite_servicing" then
    truthyVal (andVal (field data "target") (field data "service"))
  else if String.eqb type "power_transfer" then
    truthyVal (andVal (field data "target") (field data "powerAmount"))
  else false.

(** The fields each transaction type must carry, as the [switch] lists
    them. *)
Definition requiredFields (type : string) : option (list string) :=
  if String.eqb type "debris_capture" then Some ["satellite"; "debris"; "quantity"]
  else if String.eqb type "material_processing" then Some ["material"; "quantity"]
  else if String.eqb type "satellite_servicing" then Some ["target"; "service"]
  else if String.eqb type "power_transfer" then Some ["target"; "powerAmount"]
  else None.

(** [calculateTransactionFee(gasUsed, gasPrice = 20)], over the reals. *)
Definition calculateTransactionFee (gasUsed : R) (gasPrice : option R) : R :=
  let gasPrice := default 20%R gasPrice in
  ((gasUsed * gasPrice) / 1e9)%R.

(** How often a character occurs in a string. *)
Fixpoint occurrences (c : ascii) (s : string) : nat :=
  match s with
  | EmptyString => 0%nat
  | String d rest => ((if Ascii.eqb c d then 1 else 0) + occurrences c rest)%nat
  end.

End Utilities.

(* ===================================================================== *)
(** ** The scene over several frames, and the scene as a whole
       (src/unnamed/part_000, lines 600-657) *)
(* ===================================================================== *)

Module SceneRun.

Import Scene.
Local Open Scope R_scope.

(** The materials of a mesh, one or many. *)
Definition materials (m : Mesh) : list Material :=
  match material m with
  | OneMaterial mat => [mat]
  | MaterialArray mats => mats
  end.


(** The furnace callback run once per entry of [times], in order. *)
Definition Furnace_frames (isActive : bool) (times : list R) (s : Furnace) : Furnace :=
  fold_left (fun s time => Furnace_frame isActive time s) times s.

(** The state-and-ref pair behind a HUD progress figure is in step and the
    figure is a percentage. *)
Definition hudInRange (shown last : R) : Prop :=
  shown = last /\ 0 <= shown <= 100.

(** [activeSystem === name], with [None] for [null]. *)
Definition isSystem (activeSystem : option string) (name : string) : bool :=
  match activeSystem with
  | Some s => String.eqb s name
  | None => false
  end.

(** The [isActive] prop [SatelliteInteriorScene] hands to each of its six
    components, in JSX order (lines 638-651). *)
Definition activeFlags (activeSystem : option string) : list bool :=
  [isSystem activeSystem "debris-collector";
   isSystem activeSystem "repair-station";
   isSystem activeSystem "furnace";
   isSystem activeSystem "printer";
   isSystem activeSystem "arm1";
   isSystem activeSystem "arm2"].

Definition countTrue (flags : list bool) : nat :=
  List.length (List.filter (fun b : bool => b) flags).

End SceneRun.

(* ===================================================================== *)
(** ** A client object holding blocks, for running examples *)
(* ===================================================================== *)

Module DemoLedger.

Definition genesis : Block :=
  mkBlock 41 "0xaaa" "t0" "0x000" "0xm1" ["tx1"] "v" 1 2 3 4 10.

Definition tip : Block :=
  mkBlock 42 "0xbbb" "t1" "0xaaa" "0xm2" [] "v" 1 2 3 5 10.

(** The browser of [DemoEthers.freshWorld] around a client whose [blocks]
    array holds two blocks. *)
Definition seededWorld : World :=
  with_this (DemoEthers.freshWorld DemoEthers.noResponse)
            (mkClient "/api/blockchain" [genesis; tip] []).

End DemoLedger.

(* ===================================================================== *)
(** * Properties *)
(* ===================================================================== *)

Import Session.

Create HintDb js_run.

(** ** Basic facts about the environment *)

Lemma length_sent_fetch (req : Request) (w : World) :
  sent (snd (fetch req w)) = (sent w ++ [req])%list.
Proof. unfold fetch. destruct (server w (length (sent w)) req); reflexivity. Qed.

Lemma drop_own_length {A : Type} (l l' : list A) :
  drop (length l) (l ++ l')%list = l'.
Proof. induction l as [|a l IH]; [destruct l'|]; simpl; auto. Qed.

Lemma drop_all_own {A : Type} (l : list A) : drop (length l) l = [].
Proof. induction l as [|a l IH]; simpl; auto. Qed.

Lemma set_names_fresh (l : URLSearchParams) (name value : string) :
  forall k, In k (names (set l name value)) -> k = name \/ In k (names l).
Proof.
  unfold names. induction l as [|[k0 v0] l IH]; simpl; intros k Hk.
  - destruct Hk as [<-|[]]. now left.
  - destruct (String.eqb k0 name) eqn:E; simpl in Hk.
    + destruct Hk as [<-|Hk]; [right; now left|].
      right; right. clear IH E.
      induction l as [|[k1 v1] l IH]; simpl in *; [tauto|].
      destruct (String.eqb k1 name); simpl in *; tauto.
    + destruct Hk as [<-|Hk]; [right; now left|].
      destruct (IH _ Hk); tauto.
Qed.

(** ** [NASADebrisClient]: what reaches the query string *)

Lemma debris_names (params : option NASADebrisClient.Params) (k : string) :
  In k (names (NASADebrisClient.searchParamsOf params)) ->
  In k ["limit"; "altitudeMin"; "altitudeMax"].
Proof.
  unfold NASADebrisClient.searchParamsOf.
  destruct params as [[alt sz [l|] ty]|]; cbn;
    try destruct (truthyNum l); try destruct alt as [[lo hi]|]; cbn; tauto.
Qed.

(** C9.  [getDebrisData] never looks at [size] or [type]: two calls that
    differ only there build the same request and run the same computation,
    and the query string of any call has no name besides [limit],
    [altitudeMin] and [altitudeMax]. *)
Theorem getDebrisData_ignores_size_and_type :
  forall (altitude size1 size2 : option (Z * Z)) (limit : option Z)
         (type1 type2 : option (list string)) (w : World),
    let p1 := Some (NASADebrisClient.mkParams altitude size1 limit type1) in
    let p2 := Some (NASADebrisClient.mkParams altitude size2 limit type2) in
    NASADebrisClient.requestOf p1 = NASADebrisClient.requestOf p2
    /\ NASADebrisClient.getDebrisData p1 w = NASADebrisClient.getDebrisData p2 w
    /\ issued (NASADebrisClient.getDebrisData p1) w
       = issued (NASADebrisClient.getDebrisData p2) w
    /\ forall params k,
         In k (names (NASADebrisClient.searchParamsOf params)) ->
         In k ["limit"; "altitudeMin"; "altitudeMax"].
Proof.
  intros altitude size1 size2 limit type1 type2 w p1 p2.
  assert (Hreq : NASADebrisClient.requestOf p1 = NASADebrisClient.requestOf p2)
    by reflexivity.
  assert (Hrun : NASADebrisClient.getDebrisData p1 = NASADebrisClient.getDebrisData p2)
    by (unfold NASADebrisClient.getDebrisData; now rewrite Hreq).
  split; [exact Hreq|]. split; [now rewrite Hrun|]. split; [now rewrite Hrun|].
  apply debris_names.
Qed.

(** ** Parameters equal to 0 *)

Lemma setIfStr_names (v : option string) (name : string) (sp : URLSearchParams) (k : string) :
  In k (names (BlockchainClient.setIfStr v name sp)) -> k = name \/ In k (names sp).
Proof.
  unfold BlockchainClient.setIfStr. destruct v as [s|]; [|tauto].
  destruct (truthyStr s); [apply set_names_fresh|tauto].
Qed.

Lemma setIfNum_names (v : option Z) (name : string) (sp : URLSearchParams) (k : string) :
  In k (names (BlockchainClient.setIfNum v name sp)) -> k = name \/ In k (names sp).
Proof.
  unfold BlockchainClient.setIfNum. destruct v as [n|]; [|tauto].
  destruct (truthyNum n); [apply set_names_fresh|tauto].
Qed.

(** C10.  A [limit] of 0 (and, in [getBlocks], a [height] of 0) never reaches
    the URL: the request is the one built when the parameter is absent, and
    the query string does not name it. *)
Theorem zero_parameters_are_dropped :
  forall (altitude size : option (Z * Z)) (type : option (list string))
         (txType txStatus : option string) (limit height : option Z) (base : string),
    (NASADebrisClient.requestOf (Some (NASADebrisClient.mkParams altitude size (Some 0) type))
     = NASADebrisClient.requestOf (Some (NASADebrisClient.mkParams altitude size None type))
     /\ ~ In "limit" (names (NASADebrisClient.searchParamsOf
                               (Some (NASADebrisClient.mkParams altitude size (Some 0) type)))))
    /\ (BlockchainClient.transactionsRequest base
          (Some (BlockchainClient.mkTransactionsParams txType txStatus (Some 0)))
        = BlockchainClient.transactionsRequest base
            (Some (BlockchainClient.mkTransactionsParams txType txStatus None))
        /\ ~ In "limit" (names (BlockchainClient.transactionsSearchParams
               (Some (BlockchainClient.mkTransactionsParams txType txStatus (Some 0))))))
    /\ (BlockchainClient.blocksRequest base
          (Some (BlockchainClient.mkBlocksParams (Some 0) height))
        = BlockchainClient.blocksRequest base
            (Some (BlockchainClient.mkBlocksParams None height))
        /\ ~ In "limit" (names (BlockchainClient.blocksSearchParams
               (Some (BlockchainClient.mkBlocksParams (Some 0) height)))))
    /\ (BlockchainClient.blocksRequest base
          (Some (BlockchainClient.mkBlocksParams limit (Some 0)))
        = BlockchainClient.blocksRequest base
            (Some (BlockchainClient.mkBlocksParams limit None))
        /\ ~ In "height" (names (BlockchainClient.blocksSearchParams
               (Some (BlockchainClient.mkBlocksParams limit (Some 0)))))).
Proof.
  intros altitude size type txType txStatus limit height base.
  repeat split; try reflexivity.
  - unfold NASADebrisClient.searchParamsOf; cbn.
    destruct altitude as [[lo hi]|]; cbn; intuition discriminate.
  - unfold BlockchainClient.transactionsSearchParams; cbn. intros Hin.
    apply setIfStr_names in Hin as [Hin|Hin]; [discriminate|].
    apply setIfStr_names in Hin as [Hin|Hin]; [discriminate|destruct Hin].
  - unfold BlockchainClient.blocksSearchParams; cbn. intros Hin.
    apply setIfNum_names in Hin as [Hin|Hin]; [discriminate|destruct Hin].
  - unfold BlockchainClient.blocksSearchParams; cbn. intros Hin.
    apply setIfNum_names in Hin as [Hin|Hin]; [discriminate|destruct Hin].
Qed.

(** ** Requests per call *)

Section Preserves.

Context {T : Type} (f : World -> T).

Lemma preserves_bind {A B : Type} (m : M A) (k : A -> M B) :
  preserves f m -> (forall a, preserves f (k a)) -> preserves f (bind m k).
Proof.
  intros Hm Hk w. unfold bind. specialize (Hm w).
  destruct (m w) as [[a|e] w']; cbn in *; [|exact Hm].
  now rewrite Hk.
Qed.

Lemma preserves_tryCatch {A : Type} (m : M A) (h : Exn -> M A) :
  preserves f m -> (forall e, preserves f (h e)) -> preserves f (tryCatch m h).
Proof.
  intros Hm Hh w. unfold tryCatch. specialize (Hm w).
  destruct (m w) as [[a|e] w']; cbn in *; [exact Hm|].
  now rewrite Hh.
Qed.

Lemma preserves_lift {A : Type} (o : Outcome A) : preserves f (lift o).
Proof. now intros w. Qed.

Lemma preserves_ret {A : Type} (a : A) : preserves f (ret a).
Proof. now intros w. Qed.

Lemma preserves_throw {A : Type} (e : Exn) : preserves f (@throw A e).
Proof. now intros w. Qed.

Lemma preserves_get {A : Type} (g : World -> A) : preserves f (get g).
Proof. now intros w. Qed.

Lemma preserves_json (r : Response) : preserves f (json r).
Proof. unfold json. destruct (body r); [apply preserves_ret|apply preserves_throw]. Qed.

End Preserves.

#[local] Hint Resolve preserves_bind preserves_tryCatch preserves_lift preserves_ret
  preserves_throw preserves_get preserves_json : js_run.

Lemma fetch_keeps_this (req : Request) : preserves this (fetch req).
Proof. intros w. unfold fetch. now destruct (server _ _ _). Qed.

Lemma consoleLog_keeps_this (args : list ConsoleArg) : preserves this (consoleLog args).
Proof. now intros w. Qed.

Lemma consoleLog_offline (args : list ConsoleArg) : preserves sent (consoleLog args).
Proof. now intros w. Qed.

Lemma consoleError_keeps_this (args : list ConsoleArg) :
  preserves this (consoleError args).
Proof. now intros w. Qed.

Lemma consoleError_offline (args : list ConsoleArg) : preserves sent (consoleError args).
Proof. now intros w. Qed.

Lemma mathRandom36_keeps_this : preserves this mathRandom36.
Proof. now intros w. Qed.

Lemma mathRandom36_offline : preserves sent mathRandom36.
Proof. now intros w. Qed.

#[local] Hint Resolve fetch_keeps_this consoleLog_keeps_this consoleLog_offline
  consoleError_keeps_this consoleError_offline
  mathRandom36_keeps_this mathRandom36_offline : js_run.

Lemma preserves_unwrapDataTotal {T : Type} (f : World -> T) (j : Json) :
  preserves f (BlockchainClient.unwrapDataTotal j).
Proof.
  unfold BlockchainClient.unwrapDataTotal.
  apply preserves_bind; [auto with js_run|]. intros success.
  destruct (negb (truthyVal success)); auto 10 with js_run.
Qed.

Lemma preserves_unwrapData {T : Type} (f : World -> T) (j : Json) :
  preserves f (BlockchainClient.unwrapData j).
Proof.
  unfold BlockchainClient.unwrapData.
  apply preserves_bind; [auto with js_run|]. intros success.
  destruct (negb (truthyVal success)); auto 10 with js_run.
Qed.

#[local] Hint Resolve preserves_unwrapDataTotal preserves_unwrapData : js_run.

Lemma verifySignature_preserves `{Ethers} {T : Type} (f : World -> T)
    (message : string) (signature from : JsVal) :
  (forall args, preserves f (consoleError args)) ->
  preserves f (BlockchainClient.verifySignature message signature from).
Proof.
  intros Hlog.
  unfold BlockchainClient.verifySignature, BlockchainClient.verifyMessageM.
  apply preserves_tryCatch.
  - apply preserves_bind; [destruct (verifyMessage _ _); auto with js_run|].
    intros a. apply preserves_bind; [auto with js_run|].
    intros d. destruct (negb _); auto with js_run.
  - intros e. apply preserves_bind; [apply Hlog|]. auto with js_run.
Qed.

Lemma verifySignature_offline `{Ethers} (message : string) (signature from : JsVal) :
  preserves sent (BlockchainClient.verifySignature message signature from).
Proof. apply verifySignature_preserves. apply consoleError_offline. Qed.

Lemma verifySignature_keeps_this `{Ethers} (message : string) (signature from : JsVal) :
  preserves this (BlockchainClient.verifySignature message signature from).
Proof. apply verifySignature_preserves. apply consoleError_keeps_this. Qed.

Lemma offline_createTransaction `{Ethers} (txData : BlockchainClient.TxData) :
  offline (BlockchainClient.createTransaction txData).
Proof.
  unfold offline, BlockchainClient.createTransaction.
  apply preserves_bind; [apply verifySignature_offline|]. intros _.
  apply preserves_bind; [auto with js_run|]. intros _.
  apply preserves_bind; [auto with js_run|]. intros r.
  apply preserves_bind; [auto with js_run|]. intros text.
  apply preserves_bind; [auto with js_run|]. intros self.
  destruct (BlockchainClient.arrayGet _ _); [|auto with js_run].
  apply preserves_bind; [auto with js_run|]. intros now.
  apply preserves_bind; [now intros w|]. auto with js_run.
Qed.

(** One [fetch], then no more: exactly that request is issued. *)
Lemma issued_fetch_then {A : Type} (req : Request) (k : Response -> M A) (w : World) :
  (forall r, offline (k r)) -> issued (do r <- fetch req; k r) w = [req].
Proof.
  intros Hk. unfold issued, after, bind.
  pose proof (length_sent_fetch req w) as Hs.
  destruct (fetch req w) as [[r|e] w'] eqn:Hf; cbn in *.
  - rewrite Hk, Hs. apply drop_own_length.
  - rewrite Hs. apply drop_own_length.
Qed.

Lemma issued_self_fetch_then {A : Type} (req : BlockchainClient -> Request)
    (k : Response -> M A) (w : World) :
  (forall r, offline (k r)) ->
  issued (do self <- get this; do r <- fetch (req self); k r) w = [req (this w)].
Proof. intros Hk. exact (issued_fetch_then (req (this w)) k w Hk). Qed.

Lemma issued_offline {A : Type} (m : M A) (w : World) : offline m -> issued m w = [].
Proof. intros Hm. unfold issued, after. rewrite Hm. apply drop_all_own. Qed.

(** C8, as amended.  No method asks twice: each of the seven request methods
    issues exactly one request per call, whatever the answer, and
    [createTransaction] issues none. *)
Theorem at_most_one_request_per_call `{Ethers} :
  forall (w : World),
    (forall params,
        issued (NASADebrisClient.getDebrisData params) w
        = [NASADebrisClient.requestOf params])
    /\ issued NASADebrisClient.getDebrisStatistics w = [GET "/api/nasa/statistics"]
    /\ (forall params,
           issued (BlockchainClient.getTransactions params) w
           = [BlockchainClient.transactionsRequest (baseUrl (this w)) params])
    /\ (forall params,
           issued (BlockchainClient.getBlocks params) w
           = [BlockchainClient.blocksRequest (baseUrl (this w)) params])
    /\ (forall params, length (issued (BlockchainClient.getSmartContracts params) w) = 1%nat)
    /\ (forall params, length (issued (BlockchainClient.executeContract params) w) = 1%nat)
    /\ (forall timeframe, length (issued (BlockchainClient.getAnalytics timeframe) w) = 1%nat)
    /\ (forall txData, issued (BlockchainClient.createTransaction txData) w = []).
Proof.
  intros w. repeat split; intros.
  - apply issued_fetch_then. intros r. unfold offline.
    destruct (negb (ok r)); auto with js_run.
  - apply issued_fetch_then. intros r. unfold offline.
    destruct (negb (ok r)); auto with js_run.
  - apply (issued_self_fetch_then
             (fun self => BlockchainClient.transactionsRequest (baseUrl self) params)).
    intros r. unfold offline. auto with js_run.
  - apply (issued_self_fetch_then
             (fun self => BlockchainClient.blocksRequest (baseUrl self) params)).
    intros r. unfold offline. auto with js_run.
  - unfold BlockchainClient.getSmartContracts.
    rewrite (issued_self_fetch_then (fun self => GET _)); [reflexivity|].
    intros r. unfold offline. auto with js_run.
  - unfold BlockchainClient.executeContract.
    rewrite (issued_self_fetch_then (fun self => mkRequest _ _ _ _)); [reflexivity|].
    intros r. unfold offline. auto with js_run.
  - unfold BlockchainClient.getAnalytics.
    rewrite (issued_self_fetch_then (fun self => GET _)); [reflexivity|].
    intros r. unfold offline. auto with js_run.
  - apply issued_offline, offline_createTransaction.
Qed.

(** ** Failure responses *)

Lemma fetch_answered (req : Request) (w : World) (r : Response) :
  nextAnswer w req = HttpResponse r ->
  fetch req w = (Return r, with_sent w (sent w ++ [req])).
Proof. unfold nextAnswer, fetch. now intros ->. Qed.

Lemma unwrapDataTotal_fails (r : Response) (w : World) :
  bodyFails r = true ->
  throws (do result <- json r; BlockchainClient.unwrapDataTotal result) w.
Proof.
  unfold bodyFails, throws, result, json, BlockchainClient.unwrapDataTotal.
  destruct (body r) as [j|]; [|intros _; eexists; reflexivity].
  unfold bind, ret, lift; cbn.
  destruct (getProp j "success") as [v|e] eqn:Hs; [|intros _; eexists; reflexivity].
  intros ->. cbn. destruct (getProp j "error"); eexists; reflexivity.
Qed.

Lemma unwrapData_fails (r : Response) (w : World) :
  bodyFails r = true ->
  throws (do result <- json r; BlockchainClient.unwrapData result) w.
Proof.
  unfold bodyFails, throws, result, json, BlockchainClient.unwrapData.
  destruct (body r) as [j|]; [|intros _; eexists; reflexivity].
  unfold bind, ret, lift; cbn.
  destruct (getProp j "success") as [v|e] eqn:Hs; [|intros _; eexists; reflexivity].
  intros ->. cbn. destruct (getProp j "error"); eexists; reflexivity.
Qed.

Lemma throws_after_fetch {A : Type} (req : BlockchainClient -> Request)
    (k : Response -> M A) (w : World) (r : Response) :
  nextAnswer w (req (this w)) = HttpResponse r ->
  (forall w', throws (k r) w') ->
  throws (do self <- get this; do response <- fetch (req self); k response) w.
Proof.
  intros Hans Hk. unfold throws, result, bind, get; cbn.
  rewrite (fetch_answered _ _ _ Hans). apply Hk.
Qed.

(** C4, as amended.  The two [NASADebrisClient] methods throw when the
    response status is not ok.  The five [BlockchainClient] request methods
    do not look at the status: they throw when the body is not JSON, is
    [null], or carries no truthy [success]. *)
Theorem failure_responses_throw :
  forall (w : World) (r : Response),
    (forall req, nextAnswer w req = HttpResponse r) ->
    (ok r = false ->
       (forall params,
           result (NASADebrisClient.getDebrisData params) w
           = Throw (Error "Failed to fetch debris data"))
       /\ result NASADebrisClient.getDebrisStatistics w
          = Throw (Error "Failed to fetch debris statistics"))
    /\ (bodyFails r = true ->
          (forall params, throws (BlockchainClient.getTransactions params) w)
          /\ (forall params, throws (BlockchainClient.getBlocks params) w)
          /\ (forall params, throws (BlockchainClient.getSmartContracts params) w)
          /\ (forall params, throws (BlockchainClient.executeContract params) w)
          /\ (forall timeframe, throws (BlockchainClient.getAnalytics timeframe) w)).
Proof.
  intros w r Hans. split.
  - intros Hok. split; [intros params|];
      unfold result, NASADebrisClient.getDebrisData, NASADebrisClient.getDebrisStatistics,
        bind;
      rewrite (fetch_answered _ _ _ (Hans _)), Hok; reflexivity.
  - intros Hbody. repeat split; intros.
    + apply (throws_after_fetch
               (fun self => BlockchainClient.transactionsRequest (baseUrl self) params)
               _ w r (Hans _)).
      intros w'. now apply unwrapDataTotal_fails.
    + apply (throws_after_fetch
               (fun self => BlockchainClient.blocksRequest (baseUrl self) params)
               _ w r (Hans _)).
      intros w'. now apply unwrapDataTotal_fails.
    + unfold BlockchainClient.getSmartContracts.
      apply (throws_after_fetch (fun self => GET _) _ w r (Hans _)).
      intros w'. now apply unwrapDataTotal_fails.
    + unfold BlockchainClient.executeContract.
      apply (throws_after_fetch (fun self => mkRequest _ _ _ _) _ w r (Hans _)).
      intros w'. now apply unwrapData_fails.
    + unfold BlockchainClient.getAnalytics.
      apply (throws_after_fetch (fun self => GET _) _ w r (Hans _)).
      intros w'. now apply unwrapData_fails.
Qed.

Lemma failure_responses_throw_witness :
  (forall req, nextAnswer (DemoEthers.freshWorld (DemoEthers.always DemoEthers.okButFailure)) req
               = HttpResponse DemoEthers.okButFailure)
  /\ bodyFails DemoEthers.okButFailure = true
  /\ throws (BlockchainClient.getTransactions None)
            (DemoEthers.freshWorld (DemoEthers.always DemoEthers.okButFailure)).
Proof.
  split; [reflexivity|]. split; [reflexivity|].
  apply (failure_responses_throw
           (DemoEthers.freshWorld (DemoEthers.always DemoEthers.okButFailure))
           DemoEthers.okButFailure); reflexivity.
Defined.

(** C4, the claim as stated fails: a response with status 500 whose body
    says [success: true] makes [getTransactions] return normally. *)
Lemma getTransactions_returns_on_http_500 :
  ok DemoEthers.failedButSuccess = false
  /\ result (BlockchainClient.getTransactions None)
            (DemoEthers.freshWorld (DemoEthers.always DemoEthers.failedButSuccess))
     = Return (BlockchainClient.mkDataTotal (Some (JArr [])) (Some (JNum 0))).
Proof. split; reflexivity. Qed.

(** ** [getBlocks] hands the data through *)

(** C6.  Whenever the server's answer parses to an object with a truthy
    [success], [getBlocks] returns that object's [data] and [total] as they
    came: nothing about the blocks is inspected, and the client object is
    left as it was. *)
Theorem getBlocks_returns_data_unchecked :
  forall (w : World) (params : option BlockchainClient.BlocksParams)
         (r : Response) (fields : list (string * Json)),
    nextAnswer w (BlockchainClient.blocksRequest (baseUrl (this w)) params) = HttpResponse r ->
    body r = Some (JObj fields) ->
    truthyVal (assoc "success" fields) = true ->
    result (BlockchainClient.getBlocks params) w
    = Return (BlockchainClient.mkDataTotal (assoc "data" fields) (assoc "total" fields))
    /\ this (after (BlockchainClient.getBlocks params) w) = this w.
Proof.
  intros w params r fields Hans Hbody Hsucc.
  unfold result, after, BlockchainClient.getBlocks, bind, get; cbn.
  rewrite (fetch_answered _ _ _ Hans). unfold json. rewrite Hbody.
  unfold BlockchainClient.unwrapDataTotal, bind, lift, ret; cbn.
  rewrite Hsucc. cbn. split; reflexivity.
Qed.

Lemma getBlocks_returns_data_unchecked_witness :
  result (BlockchainClient.getBlocks None)
         (DemoEthers.freshWorld (DemoEthers.always DemoEthers.unchainedResponse))
  = Return (BlockchainClient.mkDataTotal
              (Some (JArr (map DemoEthers.blockJson DemoEthers.unchained)))
              (Some (JNum 2)))
  /\ this (after (BlockchainClient.getBlocks None)
                 (DemoEthers.freshWorld (DemoEthers.always DemoEthers.unchainedResponse)))
     = this (DemoEthers.freshWorld (DemoEthers.always DemoEthers.unchainedResponse)).
Proof.
  apply (getBlocks_returns_data_unchecked
           (DemoEthers.freshWorld (DemoEthers.always DemoEthers.unchainedResponse))
           None DemoEthers.unchainedResponse
           [("success", JBool true);
            ("data", JArr (map DemoEthers.blockJson DemoEthers.unchained));
            ("total", JNum 2)]); reflexivity.
Defined.

(** ** Signature verification in [createTransaction] *)

Lemma restWithout_signature (txData : list (string * Json)) :
  BlockchainClient.restWithout "signature" txData = exceptSignature txData.
Proof.
  unfold exceptSignature. induction txData as [|[k v] rest IH]; [reflexivity|].
  cbn. destruct (String.eqb k "signature"); cbn; now rewrite IH.
Qed.

Lemma assoc_exceptSignature (name : string) (txData : list (string * Json)) :
  name <> "signature" ->
  assoc name (exceptSignature txData) = assoc name txData.
Proof.
  intros Hname. unfold exceptSignature.
  induction txData as [|[k v] rest IH]; [reflexivity|]. cbn.
  destruct (String.eqb_spec k "signature") as [->|Hk]; cbn.
  - destruct (String.eqb_spec name "signature"); [contradiction|exact IH].
  - destruct (String.eqb name k); [reflexivity|exact IH].
Qed.

Lemma createTransaction_run `{Ethers} (txData : BlockchainClient.TxData) (w : World) :
  BlockchainClient.createTransaction txData w
  = (do_ BlockchainClient.verifySignature (signedText txData)
           (assoc "signature" txData) (assoc "from" txData);
     do_ consoleLog [Text "âœ… Signature Verified Successfully!"];
     do r <- mathRandom36;
     do timestamp_ <- lift (BlockchainClient.callToString (assoc "timestamp" txData));
     do self <- get this;
     match BlockchainClient.arrayGet (blocks self) (Z.of_nat (length (blocks self)) - 1) with
     | None => throw (TypeError "Cannot read properties of undefined (reading 'height')")
     | Some lastBlock =>
         do now <- get dateNow;
         do_ modify (fun w =>
               with_this w
                 (mkClient (baseUrl (this w)) (blocks (this w))
                    (BlockchainClient.objectLiteral
                       ([("id", Some (JStr ("tx_" +:+ substring 2 8 r)))]
                        ++ BlockchainClient.spread (exceptSignature txData)
                        ++ [("timestamp", Some (JStr timestamp_));
                            ("status", Some (JStr "confirmed"));
                            ("blockHeight", Some (JNum (height lastBlock)));
                            ("hash", Some (JStr (id (signedText txData +:+ numToString now))));
                            ("gasUsed", Some (JNum 21000));
                            ("signature", assoc "signature" txData)])
                     :: transactions (this w))));
         ret (BlockchainClient.mkCreateResult true)
     end) w.
Proof.
  unfold BlockchainClient.createTransaction, signedText.
  rewrite restWithout_signature.
  rewrite !(assoc_exceptSignature _ txData) by discriminate.
  reflexivity.
Qed.

Lemma verifySignature_mismatch `{Ethers} (message : string) (signature from : JsVal)
    (w : World) :
  signerMismatch message signature from ->
  exists caught,
    BlockchainClient.verifySignature message signature from w
    = (Throw (Error "Invalid signature."),
       with_console w (console w ++ [ConsoleError [Text "Signature verification failed:";
                                                   Caught caught]])).
Proof.
  unfold signerMismatch, BlockchainClient.verifySignature,
    BlockchainClient.verifyMessageM, tryCatch, bind.
  destruct (verifyMessage message signature) as [a|]; cbn;
    [|intros _; eexists; reflexivity].
  intros Hne. unfold lift.
  destruct from as [[| | |declared| |]|]; cbn; try (eexists; reflexivity).
  destruct (String.eqb_spec (toLowerCase a) (toLowerCase declared)) as [E|E];
    [now destruct (Hne declared eq_refl)|eexists; reflexivity].
Qed.

Lemma verifySignature_match `{Ethers} (message : string) (signature from : JsVal)
    (signer declared : string) (w : World) :
  verifyMessage message signature = Some signer ->
  from = Some (JStr declared) ->
  toLowerCase signer = toLowerCase declared ->
  BlockchainClient.verifySignature message signature from w = (Return tt, w).
Proof.
  intros Hv -> Hl.
  unfold BlockchainClient.verifySignature, BlockchainClient.verifyMessageM, tryCatch, bind.
  rewrite Hv; cbn. rewrite Hl, String.eqb_refl. reflexivity.
Qed.

Lemma invalid_signature_is_rejected `{Ethers}
    (txData : BlockchainClient.TxData) (w : World) :
  signerMismatch (signedText txData) (assoc "signature" txData) (assoc "from" txData) ->
  result (BlockchainClient.createTransaction txData) w
  = Throw (Error "Invalid signature.")
  /\ this (after (BlockchainClient.createTransaction txData) w) = this w.
Proof.
  intros Hbad.
  destruct (verifySignature_mismatch _ _ _ w Hbad) as (caught & Hrun).
  unfold result, after. rewrite createTransaction_run.
  split; unfold bind at 1; rewrite Hrun; reflexivity.
Qed.

(** C1.  [createTransaction] verifies the signature over the JSON text of
    the payload, which is the submission's own properties other than
    [signature], in the caller's order; when recovery throws, or the
    recovered address differs from the declared [from] after lower-casing
    both (a [from] that is not a string matches nothing), the call throws
    [Error("Invalid signature.")] and the client object is untouched. *)
Theorem createTransaction_rejects_invalid_signature `{Ethers} :
  forall (txData : BlockchainClient.TxData) (w : World),
    let message :=
      stringify (JObj (List.filter (fun kv => negb (String.eqb (fst kv) "signature"))
                                   txData)) in
    let recovered := verifyMessage message (assoc "signature" txData) in
    (recovered = None
     \/ exists signerAddress,
          recovered = Some signerAddress
          /\ forall declared,
               assoc "from" txData = Some (JStr declared) ->
               toLowerCase signerAddress <> toLowerCase declared) ->
    result (BlockchainClient.createTransaction txData) w
    = Throw (Error "Invalid signature.")
    /\ this (after (BlockchainClient.createTransaction txData) w) = this w.
Proof.
  intros txData w message recovered Hbad.
  apply invalid_signature_is_rejected. unfold signerMismatch.
  change (verifyMessage (signedText txData) (assoc "signature" txData)) with recovered.
  destruct Hbad as [->|(signerAddress & -> & Hne)]; [exact I|exact Hne].
Qed.

Lemma createTransaction_rejects_invalid_signature_witness :
  result (BlockchainClient.createTransaction (H := DemoEthers.demo) DemoEthers.unsignedTx)
         (DemoEthers.freshWorld DemoEthers.noResponse)
  = Throw (Error "Invalid signature.")
  /\ this (after (BlockchainClient.createTransaction (H := DemoEthers.demo) DemoEthers.unsignedTx)
                 (DemoEthers.freshWorld DemoEthers.noResponse))
     = this (DemoEthers.freshWorld DemoEthers.noResponse).
Proof.
  apply (@createTransaction_rejects_invalid_signature DemoEthers.demo
           DemoEthers.unsignedTx (DemoEthers.freshWorld DemoEthers.noResponse)).
  left. vm_compute. reflexivity.
Defined.

Lemma signerMismatch_dec `{Ethers} (message : string) (signature from : JsVal) :
  signerMismatch message signature from
  \/ exists signer declared,
       verifyMessage message signature = Some signer
       /\ from = Some (JStr declared)
       /\ toLowerCase signer = toLowerCase declared.
Proof.
  unfold signerMismatch. destruct (verifyMessage message signature) as [a|]; [|now left].
  destruct from as [[| | |declared| |]|]; try (left; intros d [=]; fail).
  destruct (String.eqb_spec (toLowerCase a) (toLowerCase declared)) as [E|E].
  - right. now exists a, declared.
  - left. intros d [= <-]. exact E.
Qed.

Lemma stripPrefix_app (p s : string) : DemoEthers.stripPrefix p (p +:+ s) = Some s.
Proof.
  induction p as [|c p IH]; [reflexivity|].
  change (String c p +:+ s) with (String c (p +:+ s)).
  cbn [DemoEthers.stripPrefix]. now rewrite Ascii.eqb_refl.
Qed.

Lemma demo_recovers_signer (key message : string) :
  verifyMessage (Ethers := DemoEthers.demo) message
                (Some (JStr (DemoEthers.signMessage key message)))
  = Some (DemoEthers.addressOf key).
Proof. cbn. unfold DemoEthers.signMessage. apply stripPrefix_app. Qed.

Lemma callToString_throws (v : JsVal) (e : Exn) :
  BlockchainClient.callToString v = Throw e ->
  exists what, e = TypeError what
               /\ what <> "Cannot read properties of undefined (reading 'height')".
Proof.
  unfold BlockchainClient.callToString.
  destruct v as [j|]; [|intros [= <-]; eexists; split; [reflexivity|discriminate]].
  destruct j; cbv beta iota; try destruct (toStringOf _);
    intros Hx; try discriminate Hx; injection Hx as <-;
    eexists; (split; [reflexivity|discriminate]).
Qed.

(** The call once the signature check has passed. *)
Lemma createTransaction_verified `{Ethers} (txData : BlockchainClient.TxData) (w : World) :
  BlockchainClient.verifySignature (signedText txData) (assoc "signature" txData)
    (assoc "from" txData) w = (Return tt, w) ->
  BlockchainClient.createTransaction txData w
  = let logged :=
      with_randomCalls
        (with_console w (console w ++ [ConsoleLog [Text "âœ… Signature Verified Successfully!"]]))
        (S (randomCalls w)) in
    match BlockchainClient.callToString (assoc "timestamp" txData) with
    | Throw e => (Throw e, logged)
    | Return text =>
        match BlockchainClient.arrayGet (blocks (this w))
                (Z.of_nat (length (blocks (this w))) - 1) with
        | None =>
            (Throw (TypeError "Cannot read properties of undefined (reading 'height')"),
             logged)
        | Some lastBlock =>
            (Return (BlockchainClient.mkCreateResult true),
             with_this logged
               (mkClient (baseUrl (this w)) (blocks (this w))
                  (BlockchainClient.objectLiteral
                     ([("id", Some (JStr ("tx_" +:+ substring 2 8
                                                      (mathRandom w (randomCalls w)))))]
                      ++ BlockchainClient.spread (exceptSignature txData)
                      ++ [("timestamp", Some (JStr text));
                          ("status", Some (JStr "confirmed"));
                          ("blockHeight", Some (JNum (height lastBlock)));
                          ("hash", Some (JStr (id (signedText txData
                                                   +:+ numToString (dateNow w)))));
                          ("gasUsed", Some (JNum 21000));
                          ("signature", assoc "signature" txData)])
                   :: transactions (this w))))
        end
    end.
Proof.
  intros Hpass. rewrite createTransaction_run. unfold bind at 1. rewrite Hpass.
  unfold bind, consoleLog, modify, mathRandom36, lift, get, ret, throw.
  cbn -[BlockchainClient.objectLiteral signedText].
  destruct (BlockchainClient.callToString (assoc "timestamp" txData)); [|reflexivity].
  destruct (BlockchainClient.arrayGet _ _); reflexivity.
Qed.

Lemma verified_call_is_not_rejected `{Ethers} (txData : BlockchainClient.TxData) (w : World) :
  BlockchainClient.verifySignature (signedText txData) (assoc "signature" txData)
    (assoc "from" txData) w = (Return tt, w) ->
  result (BlockchainClient.createTransaction txData) w
  = Throw (TypeError "Cannot read properties of undefined (reading 'height')")
  \/ (exists what, what <> "Cannot read properties of undefined (reading 'height')"
                   /\ result (BlockchainClient.createTransaction txData) w
                      = Throw (TypeError what)
                   /\ forall text,
                        BlockchainClient.callToString (assoc "timestamp" txData)
                        <> Return text)
  \/ result (BlockchainClient.createTransaction txData) w
     = Return (BlockchainClient.mkCreateResult true).
Proof.
  intros Hpass.
  remember (result (BlockchainClient.createTransaction txData) w) as r eqn:Hr.
  unfold result in Hr. rewrite createTransaction_run in Hr. unfold bind at 1 in Hr.
  rewrite Hpass in Hr. cbn in Hr.
  destruct (BlockchainClient.callToString (assoc "timestamp" txData)) as [text|e] eqn:Hts.
  - cbn in Hr. destruct (BlockchainClient.arrayGet _ _); cbn in Hr; subst r;
      [right; right|left]; reflexivity.
  - right; left. cbn in Hr. subst r.
    destruct (callToString_throws _ _ Hts) as (what & -> & Hwhat).
    exists what. split; [exact Hwhat|]. split; [reflexivity|]. intros text; discriminate.
Qed.

Section SignedPayload.

Context `{Ethers}.

(** The signing side of the library, which the repository's callers use and
    [createTransaction] relies on: [signMessage key message] is what
    [wallet.signMessage(message)] returns for the wallet of [key], and
    [addressOfKey key] is that wallet's address. *)
Variable signMessage : string -> string -> string.
Variable addressOfKey : string -> string.

(** Recovering the signer of a signed message gives the signing wallet's
    address. *)
Hypothesis recover_signed :
  forall key message,
    verifyMessage message (Some (JStr (signMessage key message))) = Some (addressOfKey key).

(** C2.  If the submission's signature is the sender's signature over the
    JSON text of its payload (its own properties other than [signature], in
    the order they are written), the address recovered in
    [createTransaction] equals the declared [from] up to letter case and the
    signature check passes: the [try] block completes without throwing and
    the call does not end in [Error("Invalid signature.")].  The check is
    not idle: the same payload signed by a key whose address differs from
    [from] is rejected. *)
Theorem valid_signature_passes_check :
  forall (key : string) (txData : BlockchainClient.TxData) (from : string) (w : World),
    let message :=
      stringify (JObj (List.filter (fun kv => negb (String.eqb (fst kv) "signature"))
                                   txData)) in
    assoc "signature" txData = Some (JStr (signMessage key message)) ->
    assoc "from" txData = Some (JStr from) ->
    toLowerCase (addressOfKey key) = toLowerCase from ->
    (exists signer,
        verifyMessage message (assoc "signature" txData) = Some signer
        /\ toLowerCase signer = toLowerCase from)
    /\ BlockchainClient.verifySignature message (assoc "signature" txData)
         (assoc "from" txData) w = (Return tt, w)
    /\ result (BlockchainClient.createTransaction txData) w
       <> Throw (Error "Invalid signature.")
    /\ (forall (other : string) (txData' : BlockchainClient.TxData),
           List.filter (fun kv => negb (String.eqb (fst kv) "signature")) txData'
           = List.filter (fun kv => negb (String.eqb (fst kv) "signature")) txData ->
           assoc "signature" txData' = Some (JStr (signMessage other message)) ->
           toLowerCase (addressOfKey other) <> toLowerCase from ->
           result (BlockchainClient.createTransaction txData') w
           = Throw (Error "Invalid signature.")).
Proof.
  intros key txData from w message Hsig Hfrom Hkey.
  assert (Hrec : verifyMessage message (assoc "signature" txData)
                 = Some (addressOfKey key)) by (rewrite Hsig; apply recover_signed).
  assert (Hpass : BlockchainClient.verifySignature message (assoc "signature" txData)
                    (assoc "from" txData) w = (Return tt, w))
    by (eapply verifySignature_match; eauto).
  split; [now exists (addressOfKey key)|]. split; [exact Hpass|]. split.
  - destruct (verified_call_is_not_rejected txData w Hpass)
      as [->|[(what & _ & -> & _)| ->]]; discriminate.
  - intros other txData' Hsame Hsig' Hother.
    apply invalid_signature_is_rejected. unfold signerMismatch, signedText, exceptSignature.
    rewrite Hsame. fold message. rewrite Hsig', recover_signed.
    intros declared Hdeclared.
    rewrite <- (assoc_exceptSignature "from" txData') in Hdeclared by discriminate.
    unfold exceptSignature in Hdeclared. rewrite Hsame in Hdeclared.
    fold (exceptSignature txData) in Hdeclared.
    rewrite assoc_exceptSignature in Hdeclared by discriminate.
    rewrite Hfrom in Hdeclared. injection Hdeclared as <-. exact Hother.
Qed.

End SignedPayload.

Lemma valid_signature_passes_check_witness :
  (exists signer,
      verifyMessage (Ethers := DemoEthers.demo)
        (stringify (JObj (List.filter (fun kv => negb (String.eqb (fst kv) "signature"))
                                      DemoEthers.signedTx)))
        (assoc "signature" DemoEthers.signedTx) = Some signer
      /\ toLowerCase signer = toLowerCase (toLowerCase DemoEthers.aliceAddress))
  /\ BlockchainClient.verifySignature (H := DemoEthers.demo)
       (stringify (JObj (List.filter (fun kv => negb (String.eqb (fst kv) "signature"))
                                     DemoEthers.signedTx)))
       (assoc "signature" DemoEthers.signedTx)
       (assoc "from" DemoEthers.signedTx)
       (DemoEthers.freshWorld DemoEthers.noResponse)
     = (Return tt, DemoEthers.freshWorld DemoEthers.noResponse)
  /\ result (BlockchainClient.createTransaction (H := DemoEthers.demo) DemoEthers.signedTx)
            (DemoEthers.freshWorld DemoEthers.noResponse)
     <> Throw (Error "Invalid signature.").
Proof.
  destruct (@valid_signature_passes_check DemoEthers.demo DemoEthers.signMessage
              DemoEthers.addressOf demo_recovers_signer DemoEthers.aliceKey
              DemoEthers.signedTx (toLowerCase DemoEthers.aliceAddress)
              (DemoEthers.freshWorld DemoEthers.noResponse))
    as (Hrec & Hpass & Hres & _).
  - reflexivity.
  - reflexivity.
  - reflexivity.
  - exact (conj Hrec (conj Hpass Hres)).
Defined.

(** The caller's order of properties is the order that is signed: a
    submission written in another order passes with a signature over its own
    text and is rejected with a signature over the text of another order. *)
Example property_order_is_signed :
  result (BlockchainClient.createTransaction (H := DemoEthers.demo)
            DemoEthers.shuffledSignedTx)
         (DemoEthers.freshWorld DemoEthers.noResponse)
  = Throw (TypeError "Cannot read properties of undefined (reading 'height')")
  /\ result (BlockchainClient.createTransaction (H := DemoEthers.demo)
               DemoEthers.shuffledWithOtherTextSigned)
            (DemoEthers.freshWorld DemoEthers.noResponse)
     = Throw (Error "Invalid signature.").
Proof. split; vm_compute; reflexivity. Qed.

(** ** The private arrays stay empty *)

Lemma createTransaction_on_empty_blocks `{Ethers} (txData : BlockchainClient.TxData)
    (w : World) :
  blocks (this w) = [] ->
  (result (BlockchainClient.createTransaction txData) w
   = Throw (Error "Invalid signature.")
   \/ exists what,
        result (BlockchainClient.createTransaction txData) w = Throw (TypeError what))
  /\ this (after (BlockchainClient.createTransaction txData) w) = this w.
Proof.
  intros Hblocks.
  destruct (signerMismatch_dec (signedText txData) (assoc "signature" txData)
              (assoc "from" txData)) as [Hbad|(signer & declared & Hv & Hf & Hl)].
  - destruct (invalid_signature_is_rejected txData w Hbad) as [-> ->].
    split; [now left|reflexivity].
  - pose proof (verifySignature_match _ _ _ _ _ w Hv Hf Hl) as Hpass.
    unfold result, after.
    remember (BlockchainClient.createTransaction txData w) as out eqn:Hout.
    rewrite createTransaction_run in Hout. unfold bind at 1 in Hout.
    rewrite Hpass in Hout. cbn in Hout.
    destruct (BlockchainClient.callToString (assoc "timestamp" txData)) as [text|e] eqn:Hts;
      cbn in Hout.
    + rewrite Hblocks in Hout. cbn in Hout. subst out.
      split; [right; eexists|]; reflexivity.
    + subst out. split; [|reflexivity]. right.
      destruct (callToString_throws _ _ Hts) as (what & -> & _). now exists what.
Qed.

Lemma invoke_keeps_this `{Ethers} (c : Call) (w : World) :
  blocks (this w) = [] -> this (after (invoke c) w) = this w.
Proof.
  intros Hblocks. destruct c; cbn [invoke].
  2: { pose proof (createTransaction_on_empty_blocks txData w Hblocks) as [_ Hthis].
       unfold after, discard, bind in *.
       destruct (BlockchainClient.createTransaction txData w) as [[a|e] w'];
         exact Hthis. }
  all: unfold after; apply (preserves_bind this); [|auto with js_run].
  all: unfold BlockchainClient.getTransactions, BlockchainClient.getBlocks,
         BlockchainClient.getSmartContracts, BlockchainClient.executeContract,
         BlockchainClient.getAnalytics; auto 10 with js_run.
Qed.

Lemma reachable_arrays_empty `{Ethers} (w : World) :
  reachable w -> blocks (this w) = [] /\ transactions (this w) = [].
Proof.
  induction 1 as [w base|w c Hw [IHb IHt]|w w' Hw [IHb IHt] Hsame].
  - split; reflexivity.
  - rewrite (invoke_keeps_this c w IHb). now split.
  - rewrite Hsame. now split.
Qed.

(** C3.  In every world a client object can reach, both private arrays are
    still empty, so [createTransaction] always throws and never returns
    [{ success: true }]: with a signature that verifies the call ends in a
    [TypeError], which, [timestamp] having a text as the parameter type
    promises, is the one of reading [height] off the missing last block; the
    object, and with it the stored [transactions], is left as it was. *)
Theorem createTransaction_never_succeeds `{Ethers} :
  forall (w : World),
    reachable w ->
    blocks (this w) = []
    /\ transactions (this w) = []
    /\ forall txData,
         throws (BlockchainClient.createTransaction txData) w
         /\ result (BlockchainClient.createTransaction txData) w
            <> Return (BlockchainClient.mkCreateResult true)
         /\ transactions (this (after (BlockchainClient.createTransaction txData) w)) = []
         /\ forall signer declared,
              verifyMessage
                (stringify (JObj (List.filter
                                    (fun kv => negb (String.eqb (fst kv) "signature"))
                                    txData)))
                (assoc "signature" txData) = Some signer ->
              assoc "from" txData = Some (JStr declared) ->
              toLowerCase signer = toLowerCase declared ->
              (exists what,
                  result (BlockchainClient.createTransaction txData) w
                  = Throw (TypeError what))
              /\ forall text,
                   BlockchainClient.callToString (assoc "timestamp" txData) = Return text ->
                   result (BlockchainClient.createTransaction txData) w
                   = Throw (TypeError
                              "Cannot read properties of undefined (reading 'height')").
Proof.
  intros w Hw. destruct (reachable_arrays_empty w Hw) as [Hb Ht].
  split; [exact Hb|]. split; [exact Ht|]. intros txData.
  destruct (createTransaction_on_empty_blocks txData w Hb) as [Hres Hthis].
  split; [|split; [|split]].
  - destruct Hres as [Hres|(what & Hres)]; eexists; exact Hres.
  - destruct Hres as [Hres|(what & Hres)]; rewrite Hres; discriminate.
  - now rewrite Hthis.
  - intros signer declared Hv Hf Hl.
    pose proof (verifySignature_match (signedText txData) _ _ _ _ w Hv Hf Hl) as Hpass.
    destruct (verified_call_is_not_rejected txData w Hpass)
      as [Hheight|[(what & _ & Hother & Hnotext)|Hok]].
    + split; [eexists; exact Hheight|intros _ _; exact Hheight].
    + split; [eexists; exact Hother|]. intros text Htext. now destruct (Hnotext text).
    + destruct Hres as [Hres|(what & Hres)]; rewrite Hres in Hok; discriminate.
Qed.

Lemma createTransaction_never_succeeds_witness :
  reachable (H := DemoEthers.demo)
    (after (BlockchainClient.constructor None) (DemoEthers.freshWorld DemoEthers.noResponse))
  /\ result (BlockchainClient.createTransaction (H := DemoEthers.demo) DemoEthers.signedTx)
            (after (BlockchainClient.constructor None)
                   (DemoEthers.freshWorld DemoEthers.noResponse))
     <> Return (BlockchainClient.mkCreateResult true).
Proof.
  split; [apply reach_new|].
  destruct (@createTransaction_never_succeeds DemoEthers.demo
              (after (BlockchainClient.constructor None)
                     (DemoEthers.freshWorld DemoEthers.noResponse))
              (reach_new _ None)) as (_ & _ & Hall).
  exact (proj1 (proj2 (Hall DemoEthers.signedTx))).
Defined.

(** ** The wallet hook *)

Lemma truthyStr_nonempty (s : string) : s <> "" -> truthyStr s = true.
Proof. unfold truthyStr. destruct (String.eqb_spec s ""); [contradiction|reflexivity]. Qed.



(** A stored valid key is loaded and storage is left alone. *)
Example useWallet_loads_stored_key :
  result (UseWallet.mountEffect (H := DemoEthers.demo))
         (DemoEthers.withStored DemoEthers.aliceKey)
  = Return (Some (DemoEthers.walletOf DemoEthers.aliceKey))
  /\ localStorage (after (UseWallet.mountEffect (H := DemoEthers.demo))
                          (DemoEthers.withStored DemoEthers.aliceKey))
     = localStorage (DemoEthers.withStored DemoEthers.aliceKey).
Proof. split; [vm_compute; reflexivity|reflexivity]. Qed.

(** Nothing stored: a wallet is created and its key stored. *)
Example useWallet_creates_wallet :
  result (UseWallet.mountEffect (H := DemoEthers.demo))
         (DemoEthers.freshWorld DemoEthers.noResponse)
  = Return (Some (DemoEthers.walletOf DemoEthers.aliceKey))
  /\ localStorage (after (UseWallet.mountEffect (H := DemoEthers.demo))
                          (DemoEthers.freshWorld DemoEthers.noResponse))
     !! UseWallet.storageKey = Some DemoEthers.aliceKey.
Proof. split; vm_compute; reflexivity. Qed.

(** C8, the claim as stated fails for [createTransaction], which is a method
    of [BlockchainClient] and issues no request at all. *)
Lemma createTransaction_issues_no_request :
  issued (BlockchainClient.createTransaction (H := DemoEthers.demo) DemoEthers.signedTx)
         (DemoEthers.freshWorld DemoEthers.noResponse) = []
  /\ length (issued (BlockchainClient.createTransaction (H := DemoEthers.demo)
                        DemoEthers.signedTx)
                     (DemoEthers.freshWorld DemoEthers.noResponse)) <> 1%nat.
Proof. split; vm_compute; [reflexivity|discriminate]. Qed.

(** ** The scene: what a frame depends on *)

Section SceneFacts.

Import Scene.
Local Open Scope R_scope.

Lemma applyEmissiveIntensity_transform (m : Mesh) (intensity : R) :
  exists m', applyEmissiveIntensity (Some m) intensity = Some m'
             /\ position m' = position m
             /\ rotation m' = rotation m
             /\ scale m' = scale m.
Proof.
  unfold applyEmissiveIntensity. destruct (material m) as [mat|mats].
  - destruct (isEmissiveMaterial mat); eexists; repeat split; reflexivity.
  - eexists; repeat split; reflexivity.
Qed.

Lemma neq_false (a b : R) : neq a b = false -> a = b.
Proof. unfold neq. now destruct (Req_dec_T a b). Qed.

Lemma floor_IZR (n : Z) : floor (IZR n) = IZR n.
Proof.
  unfold floor, Int_part. f_equal.
  assert (Hup : (n + 1)%Z = up (IZR n)).
  { apply tech_up; rewrite plus_IZR; lra. }
  lia.
Qed.

(** The HUD progress after an active frame is the figure computed from the
    clock, provided the state and the ref went in equal. *)
Lemma progress_synced (computed shown : R) :
  (if neq computed shown then computed else shown) = computed.
Proof. destruct (neq computed shown) eqn:E; [reflexivity|]. symmetry. now apply neq_false. Qed.

Lemma Printer3D_pose_at (time : R) (e o : Mesh) (p : R) :
  Printer3D_pose (Printer3D_frame true time (mkPrinter3D (Some e) (Some o) p p))
  = (Some (mkVec3 (sin (time * 2) * 0.15)
                  (0.3 - remainder (floor (time * 0.5)) 10 * 0.02)
                  (cos (time * 1.8) * 0.15)),
     Some ((sin (time * 0.3) + 1) * 0.5, -0.05 + (sin (time * 0.3) + 1) * 0.5 * 0.05),
     Some (floor ((sin (time * 0.3) + 1) * 0.5 * 100))).
Proof.
  unfold Printer3D_frame, Printer3D_pose, Printer3D_hud. cbn.
  destruct (neq _ p) eqn:E; cbn; [reflexivity|].
  apply neq_false in E. now rewrite E.
Qed.

Lemma RoboticArm_pose_at (time phase : R) (a : Object3D) (j1 j2 e : Mesh) (p : R) :
  RoboticArm_pose
    (RoboticArm_frame true time (mkRoboticArm (Some a) (Some j1) (Some j2) (Some e) phase p p))
  = (Some (sin (time * 0.4 + phase) * 0.5),
     Some (cos (time * 0.6 + phase) * 0.3),
     Some (sin (time * 0.8 + phase) * 0.4),
     Some (1 + sin (time * 2 + phase) * 0.2),
     Some (floor ((sin (time * 0.6 + phase) + 1) * 50))).
Proof.
  unfold RoboticArm_frame, RoboticArm_pose, RoboticArm_hud.
  cbn [negb ra_animationPhaseRef ra_armRef ra_joint1Ref ra_joint2Ref ra_effectorRef
       ra_lastHudProgressRef ra_activityProgress fmap option_fmap option_map].
  destruct (applyEmissiveIntensity_transform
              (withScale e (setX (scale e) (1 + sin (time * 2 + phase) * 0.2)))
              (0.3 + sin (time * 3 + phase) * 0.2)) as (e' & -> & _ & _ & Hscale).
  destruct (neq _ p) eqn:E; cbn; rewrite Hscale; cbn; [reflexivity|].
  apply neq_false in E. now rewrite E.
Qed.

Lemma Furnace_pose_at (time : R) (g r o : Mesh) :
  Furnace_pose (Furnace_frame true time (mkFurnace (Some g) (Some r) (Some o)))
  = (Some (mkVec3 (1 + sin (time * 2) * 0.05) (1 + sin (time * 2) * 0.05)
                  (1 + sin (time * 2) * 0.05)),
     Some (0.1 + sin (time * 1.5) * 0.02)).
Proof.
  unfold Furnace_frame, Furnace_pose.
  cbn [fu_glowRef fu_processingRef fu_outputRef mounted andb].
  destruct (applyEmissiveIntensity_transform g (0.6 + sin (time * 3) * 0.3))
    as (g' & -> & _ & _ & _).
  reflexivity.
Qed.

Lemma Furnace_ring_advances (time : R) (g r o : Mesh) :
  Furnace_ring (Furnace_frame true time (mkFurnace (Some g) (Some r) (Some o)))
  = Some (y (rotation r) + 0.03).
Proof.
  unfold Furnace_frame, Furnace_ring.
  cbn [fu_glowRef fu_processingRef fu_outputRef mounted andb fmap option_fmap option_map].
  destruct (applyEmissiveIntensity_transform
              (withRotation r (setY (rotation r) (y (rotation r) + 0.03)))
              (0.3 + sin (time * 4) * 0.2)) as (r' & -> & _ & Hrot & _).
  cbn. now rewrite Hrot.
Qed.

Lemma DebrisCollectionArm_pose_at (time : R) (a : Object3D) (sc mg d : Mesh) :
  DebrisCollectionArm_pose
    (DebrisCollectionArm_frame true time
       (mkDebrisCollectionArm (Some a) (Some sc) (Some mg) (Some d)))
  = (Some (sin (time * 0.3) * 1.2), Some (-0.2 + sin (time * 0.8) * 0.1)).
Proof. reflexivity. Qed.

Lemma DebrisCollectionArm_spin_advances (time : R) (a : Object3D) (sc mg d : Mesh) :
  DebrisCollectionArm_spin
    (DebrisCollectionArm_frame true time
       (mkDebrisCollectionArm (Some a) (Some sc) (Some mg) (Some d)))
  = (Some (z (rotation sc) + 0.05),
     Some (x (rotation d) + 0.02, y (rotation d) + 0.01)).
Proof.
  unfold DebrisCollectionArm_frame, DebrisCollectionArm_spin.
  cbn [dc_armRef dc_scannerRef dc_magnetRef dc_debrisRef mounted negb orb
       fmap option_fmap option_map].
  destruct (applyEmissiveIntensity_transform
              (withRotation sc (setZ (rotation sc) (z (rotation sc) + 0.05)))
              (0.5 + sin (time * 4) * 0.3)) as (sc' & -> & _ & Hrot & _).
  cbn. now rewrite Hrot.
Qed.

Lemma RepairStation_pose_at (time : R) (random : nat -> R) (n : nat)
    (op : RepairOperation) (t dg a : Mesh) (sparks : option (list Object3D)) :
  status op = in_progress ->
  RepairStation_pose
    (fst (RepairStation_frame true (Some op) time random n
            (mkRepairStation (Some t) (Some dg) (Some a) sparks)))
  = (Some (sin (time * 3) * 0.2, 0.2 + sin (time * 2) * 0.03),
     Some (sin (time * 1.5) * 0.3, cos (time * 1.2) * 0.05)).
Proof.
  intros Hst. unfold RepairStation_frame, RepairStation_pose, inProgress. rewrite Hst.
  cbn [rs_toolRef rs_diagnosticRef rs_repairArmRef rs_sparksRef mounted andb].
  destruct sparks as [sp|]; [destruct (stepSparks random n sp)|]; reflexivity.
Qed.

(** C7, as amended.  With its refs mounted and the component active, what a
    frame assigns from the clock is the same for any two frames evaluated at
    the same elapsed time, whatever state each started from: the printer's
    extruder position, print-object [scale.y]/[position.y] and HUD progress;
    the robotic arm's four animated transforms and HUD progress, for one and
    the same mount-time random phase; the furnace's glow scale and output
    [position.y]; the debris arm's [rotation.y] and the debris'
    [position.y]; the repair station's tool and repair-arm transforms while
    an operation is in progress, whatever [Math.random()] returns.  The
    furnace ring's [rotation.y], the scanner's [rotation.z] and the debris'
    [rotation.x]/[rotation.y] are instead advanced by a fixed step from the
    value the previous frame left. *)
Theorem frame_poses_at_equal_time :
  forall (time : R),
    (forall e1 o1 p1 e2 o2 p2,
        Printer3D_pose (Printer3D_frame true time (mkPrinter3D (Some e1) (Some o1) p1 p1))
        = Printer3D_pose (Printer3D_frame true time (mkPrinter3D (Some e2) (Some o2) p2 p2)))
    /\ (forall phase a1 j1 k1 e1 p1 a2 j2 k2 e2 p2,
           RoboticArm_pose
             (RoboticArm_frame true time
                (mkRoboticArm (Some a1) (Some j1) (Some k1) (Some e1) phase p1 p1))
           = RoboticArm_pose
               (RoboticArm_frame true time
                  (mkRoboticArm (Some a2) (Some j2) (Some k2) (Some e2) phase p2 p2)))
    /\ (forall g1 r1 o1 g2 r2 o2,
           Furnace_pose (Furnace_frame true time (mkFurnace (Some g1) (Some r1) (Some o1)))
           = Furnace_pose (Furnace_frame true time (mkFurnace (Some g2) (Some r2) (Some o2)))
           /\ Furnace_ring (Furnace_frame true time (mkFurnace (Some g1) (Some r1) (Some o1)))
              = Some (y (rotation r1) + 0.03))
    /\ (forall a1 s1 m1 d1 a2 s2 m2 d2,
           DebrisCollectionArm_pose
             (DebrisCollectionArm_frame true time
                (mkDebrisCollectionArm (Some a1) (Some s1) (Some m1) (Some d1)))
           = DebrisCollectionArm_pose
               (DebrisCollectionArm_frame true time
                  (mkDebrisCollectionArm (Some a2) (Some s2) (Some m2) (Some d2)))
           /\ DebrisCollectionArm_spin
                (DebrisCollectionArm_frame true time
                   (mkDebrisCollectionArm (Some a1) (Some s1) (Some m1) (Some d1)))
              = (Some (z (rotation s1) + 0.05),
                 Some (x (rotation d1) + 0.02, y (rotation d1) + 0.01)))
    /\ (forall id name kind part materials dur prog
               random1 n1 t1 g1 a1 sparks1 random2 n2 t2 g2 a2 sparks2,
           let op := mkRepairOperation id name kind part materials dur prog in_progress in
           RepairStation_pose
             (fst (RepairStation_frame true (Some op) time random1 n1
                     (mkRepairStation (Some t1) (Some g1) (Some a1) sparks1)))
           = RepairStation_pose
               (fst (RepairStation_frame true (Some op) time random2 n2
                       (mkRepairStation (Some t2) (Some g2) (Some a2) sparks2)))).
Proof.
  intros time. split; [|split; [|split; [|split]]]; intros.
  - now rewrite !Printer3D_pose_at.
  - now rewrite !RoboticArm_pose_at.
  - split; [now rewrite !Furnace_pose_at|apply Furnace_ring_advances].
  - split; [now rewrite !DebrisCollectionArm_pose_at
           |apply DebrisCollectionArm_spin_advances].
  - now rewrite !RepairStation_pose_at by reflexivity.
Qed.

(** C7, the claim as stated fails on the furnace: two frames at elapsed
    time 0, one after the other from the mounted scene, leave the ring at
    different rotations, and the HUD output figure changes with the value
    [Math.random()] returns at render. *)
Lemma furnace_frames_at_equal_time_differ :
  Furnace_ring (Furnace_frame true 0 Furnace_mount)
  <> Furnace_ring (Furnace_frame true 0 (Furnace_frame true 0 Furnace_mount))
  /\ Furnace_hud true 0 0 <> Furnace_hud true 0 0.5.
Proof.
  split.
  - cbn. intros Heq. injection Heq as Heq. lra.
  - unfold Furnace_hud. intros Heq. injection Heq as Heq.
    replace (0 * 50) with (IZR 0) in Heq by lra.
    replace (0.5 * 50) with (IZR 25) in Heq by lra.
    rewrite !floor_IZR in Heq. lra.
Qed.

End SceneFacts.

(** ** The models on concrete inputs *)

Example debris_request :
  NASADebrisClient.requestOf
    (Some (NASADebrisClient.mkParams (Some (200, 2000)) (Some (1, 5)) (Some 10)
                                     (Some ["fragment"])))
  = GET "/api/nasa/debris?limit=10&altitudeMin=200&altitudeMax=2000".
Proof. vm_compute. reflexivity. Qed.

Example debris_request_without_params :
  NASADebrisClient.requestOf None = GET "/api/nasa/debris?".
Proof. vm_compute. reflexivity. Qed.

Example transactions_request :
  BlockchainClient.transactionsRequest "/api/blockchain"
    (Some (BlockchainClient.mkTransactionsParams (Some "power transfer&x") (Some "") (Some 25)))
  = GET "/api/blockchain/transactions?type=power+transfer%26x&limit=25".
Proof. vm_compute. reflexivity. Qed.

Example set_overwrites_first :
  set [("a", "1"); ("b", "2"); ("a", "3")] "a" "9" = [("a", "9"); ("b", "2")].
Proof. reflexivity. Qed.

Example stringify_array :
  stringify (JArr [JNum (-7); JBool true; JNull; JArr []; JObj []]) = "[-7,true,null,[],{}]".
Proof. vm_compute. reflexivity. Qed.

Example stringify_escapes :
  stringify (JObj [("k", JStr "a\b")])
  = "{" +:+ String dquote ("k" +:+ String dquote (":" +:+ String dquote
      ("a\\b" +:+ String dquote "}"))).
Proof. vm_compute. reflexivity. Qed.

Example signed_submission_fails_on_empty_blocks :
  result (BlockchainClient.createTransaction (H := DemoEthers.demo) DemoEthers.signedTx)
         (DemoEthers.freshWorld DemoEthers.noResponse)
  = Throw (TypeError "Cannot read properties of undefined (reading 'height')").
Proof. vm_compute. reflexivity. Qed.

Example furnace_first_frame :
  Scene.Furnace_ring (Scene.Furnace_frame true 0 Scene.Furnace_mount) = Some (0 + 0.03)%R.
Proof. reflexivity. Qed.

Example inactive_furnace_is_still (time : R) (s : Scene.Furnace) :
  Scene.Furnace_frame false time s = s.
Proof.
  unfold Scene.Furnace_frame. rewrite !andb_false_r. now destruct s.
Qed.

(* ===================================================================== *)
(** * Further properties of the code *)
(* ===================================================================== *)

(** ** Formatting hashes and addresses *)

Lemma length_substring (s : string) (n m : nat) :
  String.length (substring n m s) = Nat.min m (String.length s - n).
Proof.
  revert n m. induction s as [|c s IH]; intros n m.
  - destruct n, m; reflexivity.
  - destruct n as [|n]; [destruct m as [|m]|]; cbn; [reflexivity| |apply IH].
    rewrite IH. now rewrite Nat.sub_0_r.
Qed.

Lemma substring_whole (s : string) (m : nat) :
  (String.length s <= m)%nat -> substring 0 m s = s.
Proof.
  revert m. induction s as [|c s IH]; intros m Hm.
  - now destruct m.
  - destruct m as [|m]; cbn in *; [lia|]. rewrite IH; [reflexivity|lia].
Qed.

Lemma length_string_app (s t : string) :
  String.length (s +:+ t) = (String.length s + String.length t)%nat.
Proof.
  induction s as [|c s IH]; [reflexivity|].
  change (String c s +:+ t) with (String c (s +:+ t)). cbn. now rewrite IH.
Qed.

Lemma slice_head (s : string) :
  Utilities.slice s 0 (Some 6) = substring 0 6 s.
Proof.
  unfold Utilities.slice, Utilities.sliceIndex. cbn [Z.ltb Z.compare].
  rewrite (Z.min_l 0) by lia.
  destruct (Z.leb_spec (Z.min 6 (Z.of_nat (String.length s))) 0) as [H|H].
  - assert (String.length s = 0%nat) as Hlen by lia.
    destruct s; [reflexivity|discriminate].
  - rewrite Z.sub_0_r. cbn [Z.to_nat].
    destruct (Z.le_ge_cases 6 (Z.of_nat (String.length s))) as [Hl|Hl].
    + rewrite Z.min_l by lia. reflexivity.
    + rewrite Z.min_r by lia. rewrite Nat2Z.id.
      rewrite !substring_whole by lia. reflexivity.
Qed.

Lemma slice_tail (s : string) :
  Utilities.slice s (-4) None = substring (String.length s - 4) 4 s.
Proof.
  unfold Utilities.slice, Utilities.sliceIndex. cbn [Z.ltb Z.compare].
  set (len := String.length s).
  destruct (Z.leb_spec (Z.of_nat len) (Z.max (Z.of_nat len + -4) 0)) as [H|H].
  - assert (len = 0%nat) as Hlen by lia.
    subst len. destruct s; [reflexivity|discriminate].
  - destruct (Z.le_ge_cases 4 (Z.of_nat len)) as [Hl|Hl].
    + rewrite Z.max_l by lia.
      replace (Z.to_nat (Z.of_nat len + -4)) with (len - 4)%nat by lia.
      replace (Z.to_nat (Z.of_nat len - (Z.of_nat len + -4))) with 4%nat by lia.
      reflexivity.
    + rewrite Z.max_r by lia. rewrite Z.sub_0_r, Nat2Z.id. cbn [Z.to_nat].
      replace (len - 4)%nat with 0%nat by lia.
      subst len. rewrite !substring_whole by lia. reflexivity.
Qed.

Lemma formatAddress_unfold (a : string) :
  Utilities.formatAddress a
  = substring 0 6 a +:+ "..." +:+ substring (String.length a - 4) 4 a.
Proof. unfold Utilities.formatAddress. now rewrite slice_head, slice_tail. Qed.

(** X1.  The text [formatAddress] (and [formatTransactionHash], which is the
    same function) returns has [min(len, 6) + 3 + min(len, 4)] characters:
    never more than 13, and exactly 13 from six characters on. *)
Theorem formatAddress_length :
  forall (a : string),
    String.length (Utilities.formatAddress a)
    = (Nat.min (String.length a) 6 + 3 + Nat.min (String.length a) 4)%nat
    /\ (String.length (Utilities.formatAddress a) <= 13)%nat
    /\ Utilities.formatTransactionHash a = Utilities.formatAddress a.
Proof.
  intros a. split; [|split; [|reflexivity]].
  all: rewrite formatAddress_unfold, !length_string_app, !length_substring.
  all: cbn [String.length]; lia.
Qed.

(** X2.  On an input of at most four characters the head and the tail
    overlap entirely: the whole input is printed on both sides of the
    dots. *)
Theorem formatAddress_short_input :
  forall (a : string),
    (String.length a <= 4)%nat ->
    Utilities.formatAddress a = a +:+ "..." +:+ a.
Proof.
  intros a Hlen. rewrite formatAddress_unfold.
  replace (String.length a - 4)%nat with 0%nat by lia.
  now rewrite !substring_whole by lia.
Qed.

Lemma formatAddress_short_input_witness :
  Utilities.formatAddress "0xAB" = "0xAB...0xAB".
Proof. apply (formatAddress_short_input "0xAB"). cbn. lia. Defined.

(** X3.  From six characters on, the result is the first six characters,
    three dots and the last four. *)
Theorem formatAddress_head_and_tail :
  forall (a : string),
    (6 <= String.length a)%nat ->
    Utilities.formatAddress a
    = substring 0 6 a +:+ "..." +:+ substring (String.length a - 4) 4 a
    /\ String.length (Utilities.formatAddress a) = 13%nat.
Proof.
  intros a Hlen. split; [apply formatAddress_unfold|].
  rewrite formatAddress_unfold, !length_string_app, !length_substring.
  cbn [String.length]. lia.
Qed.

Lemma formatAddress_head_and_tail_witness :
  Utilities.formatAddress DemoEthers.aliceAddress
  = substring 0 6 DemoEthers.aliceAddress +:+ "..."
    +:+ substring (String.length DemoEthers.aliceAddress - 4) 4 DemoEthers.aliceAddress
  /\ String.length (Utilities.formatAddress DemoEthers.aliceAddress) = 13%nat.
Proof. apply (formatAddress_head_and_tail DemoEthers.aliceAddress). vm_compute. lia. Defined.

(** ** Validating transaction metadata *)

Lemma truthyVal_andVal (a b : JsVal) :
  truthyVal (Utilities.andVal a b) = truthyVal a && truthyVal b.
Proof. unfold Utilities.andVal. now destruct (truthyVal a) eqn:E; cbn; rewrite ?E. Qed.

Lemma validate_as_table (type : string) (data : TransactionMetadata) :
  Utilities.validateTransactionData type data
  = match Utilities.requiredFields type with
    | Some fields => forallb (fun k => truthyVal (Utilities.field data k)) fields
    | None => false
    end.
Proof.
  unfold Utilities.validateTransactionData, Utilities.requiredFields.
  repeat (destruct (String.eqb type _);
          [rewrite ?truthyVal_andVal; cbn; now rewrite ?andb_true_r, ?andb_assoc|]).
  reflexivity.
Qed.

(** X4.  [validateTransactionData] accepts exactly when the type is one of
    the four known names and every field that type requires is present in the
    metadata with a truthy value; extra fields and the order of fields do not
    matter. *)
Theorem validateTransactionData_accepts_iff :
  forall (type : string) (data : TransactionMetadata),
    Utilities.validateTransactionData type data = true
    <-> exists fields,
          Utilities.requiredFields type = Some fields
          /\ forall k, In k fields -> truthyVal (Utilities.field data k) = true.
Proof.
  intros type data. rewrite validate_as_table.
  destruct (Utilities.requiredFields type) as [fields|]; split.
  - intros H. exists fields. split; [reflexivity|]. now apply forallb_forall.
  - intros (fields' & [= <-] & H). now apply forallb_forall.
  - discriminate.
  - intros (fields' & [=] & _).
Qed.

(** X5.  What [validateTransactionData] rejects: any type outside the four
    names (the comparison is exact, so a name in another letter case is
    unknown), any type with empty metadata, and any metadata in which a
    required field is missing or holds [0], the empty string, [false] or
    [null]; in particular a [quantity] of 0. *)
Theorem validateTransactionData_rejects :
  forall (type : string) (data : TransactionMetadata),
    (Utilities.requiredFields type = None ->
       Utilities.validateTransactionData type data = false)
    /\ Utilities.validateTransactionData type [] = false
    /\ (forall fields k,
           Utilities.requiredFields type = Some fields -> In k fields ->
           truthyVal (Utilities.field data k) = false ->
           Utilities.validateTransactionData type data = false)
    /\ (Utilities.field data "quantity" = Some (JNum 0) ->
          Utilities.validateTransactionData "debris_capture" data = false
          /\ Utilities.validateTransactionData "material_processing" data = false)
    /\ Utilities.validateTransactionData "Debris_Capture" data = false.
Proof.
  intros type data. split; [|split; [|split; [|split]]].
  - intros Hnone. rewrite validate_as_table. now rewrite Hnone.
  - rewrite validate_as_table. unfold Utilities.requiredFields.
    repeat (destruct (String.eqb type _); [reflexivity|]). reflexivity.
  - intros fields k Hreq Hin Hfalsy. rewrite validate_as_table, Hreq.
    apply not_true_is_false. intros Hall.
    rewrite forallb_forall in Hall. specialize (Hall k Hin). congruence.
  - intros Hq. rewrite !validate_as_table. cbn. rewrite Hq. cbn.
    now rewrite !andb_false_r.
  - reflexivity.
Qed.

(** ** Transaction fees *)

(** X6.  [calculateTransactionFee] uses a gas price of 20 when none is given,
    which makes the fee [gasUsed / 50000000]; for a non-negative gas price
    the fee is zero for zero gas, never negative for non-negative gas, and
    grows with the gas used. *)
Theorem calculateTransactionFee_monotone :
  forall (gasUsed gasUsed' gasPrice : R),
    (0 <= gasPrice)%R -> (0 <= gasUsed <= gasUsed')%R ->
    (Utilities.calculateTransactionFee gasUsed None = gasUsed / 50000000)%R
    /\ Utilities.calculateTransactionFee 0 (Some gasPrice) = 0%R
    /\ (0 <= Utilities.calculateTransactionFee gasUsed (Some gasPrice))%R
    /\ (Utilities.calculateTransactionFee gasUsed (Some gasPrice)
        <= Utilities.calculateTransactionFee gasUsed' (Some gasPrice))%R.
Proof.
  intros g g' price Hprice [Hg Hgg'].
  cbv [Utilities.calculateTransactionFee default from_option Datatypes.id].
  change (Z.pow_pos 10 9) with 1000000000%Z.
  assert (0 <= g * price)%R by (apply Rmult_le_pos; lra).
  assert (g * price <= g' * price)%R by (apply Rmult_le_compat_r; lra).
  repeat split; lra.
Qed.

Lemma calculateTransactionFee_monotone_witness :
  (Utilities.calculateTransactionFee 21000 None = 21000 / 50000000)%R
  /\ Utilities.calculateTransactionFee 0 (Some 20%R) = 0%R
  /\ (0 <= Utilities.calculateTransactionFee 21000 (Some 20%R))%R
  /\ (Utilities.calculateTransactionFee 21000 (Some 20%R)
      <= Utilities.calculateTransactionFee 42000 (Some 20%R))%R.
Proof. apply (calculateTransactionFee_monotone 21000 42000 20); lra. Defined.

(** ** The request methods, answer by answer *)

Lemma run_after_fetch {A : Type} (req : BlockchainClient -> Request)
    (k : Response -> M A) (w : World) :
  (do self <- get this; do response <- fetch (req self); k response) w
  = match nextAnswer w (req (this w)) with
    | HttpResponse r => k r (with_sent w (sent w ++ [req (this w)]))
    | NetworkFailure =>
        (Throw (TypeError "Failed to fetch"), with_sent w (sent w ++ [req (this w)]))
    end.
Proof.
  unfold bind, get, fetch, nextAnswer; cbn.
  now destruct (server w (length (sent w)) (req (this w))).
Qed.

Lemma unwrapDataTotal_object (fields : list (string * Json)) (w : World) :
  BlockchainClient.unwrapDataTotal (JObj fields) w
  = (if truthyVal (assoc "success" fields)
     then Return (BlockchainClient.mkDataTotal (assoc "data" fields) (assoc "total" fields))
     else Throw (newError (assoc "error" fields)), w).
Proof.
  unfold BlockchainClient.unwrapDataTotal, bind, lift, ret, throw; cbn.
  now destruct (truthyVal (assoc "success" fields)).
Qed.

Lemma unwrapData_object (fields : list (string * Json)) (w : World) :
  BlockchainClient.unwrapData (JObj fields) w
  = (if truthyVal (assoc "success" fields)
     then Return (assoc "data" fields)
     else Throw (newError (assoc "error" fields)), w).
Proof.
  unfold BlockchainClient.unwrapData, bind, lift, ret, throw; cbn.
  now destruct (truthyVal (assoc "success" fields)).
Qed.

(** Running one of the five methods against an answer whose body is an
    object. *)
Ltac answer_object Hans Hbody :=
  unfold result, BlockchainClient.getTransactions, BlockchainClient.getBlocks,
    BlockchainClient.getSmartContracts, BlockchainClient.executeContract,
    BlockchainClient.getAnalytics;
  rewrite run_after_fetch, Hans; unfold bind, json; rewrite Hbody; cbn;
  rewrite ?unwrapDataTotal_object, ?unwrapData_object.

(** X7.  Whatever the HTTP status, when the answer's body is an object with
    a truthy [success], [getTransactions] and [getSmartContracts] return its
    [data] and [total], and [executeContract] and [getAnalytics] return its
    [data], exactly as received ([undefined] where the body has no such
    property). *)
Theorem request_methods_return_body_fields :
  forall (w : World) (r : Response) (fields : list (string * Json)),
    (forall req, nextAnswer w req = HttpResponse r) ->
    body r = Some (JObj fields) ->
    truthyVal (assoc "success" fields) = true ->
    (forall params,
        result (BlockchainClient.getTransactions params) w
        = Return (BlockchainClient.mkDataTotal (assoc "data" fields) (assoc "total" fields)))
    /\ (forall params,
           result (BlockchainClient.getSmartContracts params) w
           = Return (BlockchainClient.mkDataTotal (assoc "data" fields)
                                                  (assoc "total" fields)))
    /\ (forall params,
           result (BlockchainClient.executeContract params) w
           = Return (assoc "data" fields))
    /\ (forall timeframe,
           result (BlockchainClient.getAnalytics timeframe) w
           = Return (assoc "data" fields)).
Proof.
  intros w r fields Hans Hbody Hsucc.
  split; [|split; [|split]]; intros; answer_object Hans Hbody; now rewrite Hsucc.
Qed.

Lemma request_methods_return_body_fields_witness :
  result (BlockchainClient.getAnalytics None)
         (DemoEthers.freshWorld (DemoEthers.always DemoEthers.failedButSuccess))
  = Return (Some (JArr [])).
Proof.
  apply (request_methods_return_body_fields
           (DemoEthers.freshWorld (DemoEthers.always DemoEthers.failedButSuccess))
           DemoEthers.failedButSuccess
           [("success", JBool true); ("data", JArr []); ("total", JNum 0)]);
    reflexivity.
Defined.

(** X8.  When the answer's body is an object without a truthy [success],
    each of the five [BlockchainClient] request methods throws
    [new Error(result.error)]: an [Error] whose message is the [error] text
    when the server sent a string, the empty string when it sent no [error]
    at all, and the digits when it sent a number. *)
Theorem request_methods_throw_server_error :
  forall (w : World) (r : Response) (fields : list (string * Json)),
    (forall req, nextAnswer w req = HttpResponse r) ->
    body r = Some (JObj fields) ->
    truthyVal (assoc "success" fields) = false ->
    let thrown := newError (assoc "error" fields) in
    (forall params, result (BlockchainClient.getTransactions params) w = Throw thrown)
    /\ (forall params, result (BlockchainClient.getBlocks params) w = Throw thrown)
    /\ (forall params, result (BlockchainClient.getSmartContracts params) w = Throw thrown)
    /\ (forall params, result (BlockchainClient.executeContract params) w = Throw thrown)
    /\ (forall timeframe, result (BlockchainClient.getAnalytics timeframe) w = Throw thrown)
    /\ (forall text, assoc "error" fields = Some (JStr text) -> thrown = Error text)
    /\ (assoc "error" fields = None -> thrown = Error "")
    /\ (forall n, assoc "error" fields = Some (JNum n) -> thrown = Error (numToString n)).
Proof.
  intros w r fields Hans Hbody Hsucc thrown. subst thrown.
  split; [|split; [|split; [|split; [|split; [|split; [|split]]]]]]; intros.
  1-5: answer_object Hans Hbody; now rewrite Hsucc.
  - now rewrite H.
  - now rewrite H.
  - now rewrite H.
Qed.

Lemma request_methods_throw_server_error_witness :
  result (BlockchainClient.getBlocks None)
         (DemoEthers.freshWorld (DemoEthers.always DemoEthers.okButFailure))
  = Throw (Error "boom")
  /\ result (BlockchainClient.getBlocks None)
            (DemoEthers.freshWorld (DemoEthers.always DemoEthers.okWithoutSuccess))
     = Throw (Error "").
Proof.
  split.
  - apply (request_methods_throw_server_error
             (DemoEthers.freshWorld (DemoEthers.always DemoEthers.okButFailure))
             DemoEthers.okButFailure
             [("success", JBool false); ("error", JStr "boom")]);
      reflexivity.
  - apply (request_methods_throw_server_error
             (DemoEthers.freshWorld (DemoEthers.always DemoEthers.okWithoutSuccess))
             DemoEthers.okWithoutSuccess
             [("data", JArr [])]);
      reflexivity.
Defined.

(** X9.  When [fetch] itself rejects (no response at all), every request
    method of both clients throws the [TypeError] of [fetch]; none catches
    it. *)
Theorem network_failure_propagates :
  forall (w : World),
    (forall req, nextAnswer w req = NetworkFailure) ->
    (forall params,
        result (NASADebrisClient.getDebrisData params) w
        = Throw (TypeError "Failed to fetch"))
    /\ result NASADebrisClient.getDebrisStatistics w = Throw (TypeError "Failed to fetch")
    /\ (forall params,
           result (BlockchainClient.getTransactions params) w
           = Throw (TypeError "Failed to fetch"))
    /\ (forall params,
           result (BlockchainClient.getBlocks params) w
           = Throw (TypeError "Failed to fetch"))
    /\ (forall params,
           result (BlockchainClient.getSmartContracts params) w
           = Throw (TypeError "Failed to fetch"))
    /\ (forall params,
           result (BlockchainClient.executeContract params) w
           = Throw (TypeError "Failed to fetch"))
    /\ (forall timeframe,
           result (BlockchainClient.getAnalytics timeframe) w
           = Throw (TypeError "Failed to fetch")).
Proof.
  intros w Hans.
  assert (Hfetch : forall req,
             fetch req w = (Throw (TypeError "Failed to fetch"),
                            with_sent w (sent w ++ [req]))).
  { intros req. specialize (Hans req). unfold nextAnswer in Hans. unfold fetch.
    now rewrite Hans. }
  split; [|split; [|split; [|split; [|split; [|split]]]]]; intros.
  1-2: unfold result, NASADebrisClient.getDebrisData, NASADebrisClient.getDebrisStatistics,
         bind; now rewrite Hfetch.
  all: unfold result, BlockchainClient.getTransactions, BlockchainClient.getBlocks,
         BlockchainClient.getSmartContracts, BlockchainClient.executeContract,
         BlockchainClient.getAnalytics;
       rewrite run_after_fetch, Hans; reflexivity.
Qed.

Lemma network_failure_propagates_witness :
  result NASADebrisClient.getDebrisStatistics (DemoEthers.freshWorld DemoEthers.noResponse)
  = Throw (TypeError "Failed to fetch").
Proof.
  apply (network_failure_propagates (DemoEthers.freshWorld DemoEthers.noResponse)).
  reflexivity.
Defined.

(** ** What the request methods leave alone *)

Lemma after_fetch_then {A : Type} (req : Request) (k : Response -> M A) (w : World) :
  (forall r, preserves (fun w => w) (k r)) ->
  after (do r <- fetch req; k r) w = with_sent w (sent w ++ [req]).
Proof.
  intros Hk. unfold after, bind, fetch.
  destruct (server w (length (sent w)) req) as [|r]; cbn; [reflexivity|apply Hk].
Qed.

Lemma after_self_fetch_then {A : Type} (req : BlockchainClient -> Request)
    (k : Response -> M A) (w : World) :
  (forall r, preserves (fun w => w) (k r)) ->
  after (do self <- get this; do r <- fetch (req self); k r) w
  = with_sent w (sent w ++ [req (this w)]).
Proof. intros Hk. exact (after_fetch_then (req (this w)) k w Hk). Qed.

Lemma only_logged {A : Type} (m : M A) (w : World) (req : Request) :
  after m w = with_sent w (sent w ++ [req]) ->
  after m w = with_sent w (sent w ++ issued m w).
Proof.
  intros Hafter. unfold issued. rewrite Hafter at 2. cbn.
  now rewrite drop_own_length.
Qed.

(** X10.  A call of a request method changes nothing in the browser but the
    log of requests sent: the client object, [localStorage], the console and
    the random sources are exactly as before, whether the call returns or
    throws. *)
Theorem request_methods_only_send :
  forall (w : World),
    (forall params,
        after (NASADebrisClient.getDebrisData params) w
        = with_sent w (sent w ++ issued (NASADebrisClient.getDebrisData params) w))
    /\ after NASADebrisClient.getDebrisStatistics w
       = with_sent w (sent w ++ issued NASADebrisClient.getDebrisStatistics w)
    /\ (forall params,
           after (BlockchainClient.getTransactions params) w
           = with_sent w (sent w ++ issued (BlockchainClient.getTransactions params) w))
    /\ (forall params,
           after (BlockchainClient.getBlocks params) w
           = with_sent w (sent w ++ issued (BlockchainClient.getBlocks params) w))
    /\ (forall params,
           after (BlockchainClient.getSmartContracts params) w
           = with_sent w (sent w ++ issued (BlockchainClient.getSmartContracts params) w))
    /\ (forall params,
           after (BlockchainClient.executeContract params) w
           = with_sent w (sent w ++ issued (BlockchainClient.executeContract params) w))
    /\ (forall timeframe,
           after (BlockchainClient.getAnalytics timeframe) w
           = with_sent w (sent w ++ issued (BlockchainClient.getAnalytics timeframe) w)).
Proof.
  intros w. split; [|split; [|split; [|split; [|split; [|split]]]]]; intros.
  1-2: eapply only_logged; apply after_fetch_then; intros r;
       destruct (negb (ok r)); auto with js_run.
  all: eapply only_logged;
       unfold BlockchainClient.getTransactions, BlockchainClient.getBlocks,
         BlockchainClient.getSmartContracts, BlockchainClient.executeContract,
         BlockchainClient.getAnalytics.
  - apply (after_self_fetch_then
             (fun self => BlockchainClient.transactionsRequest (baseUrl self) params)).
    auto with js_run.
  - apply (after_self_fetch_then
             (fun self => BlockchainClient.blocksRequest (baseUrl self) params)).
    auto with js_run.
  - apply (after_self_fetch_then (fun self => GET _)). auto with js_run.
  - apply (after_self_fetch_then (fun self => mkRequest _ _ _ _)). auto with js_run.
  - apply (after_self_fetch_then (fun self => GET _)). auto with js_run.
Qed.

(** X11.  On an ok status the [NASADebrisClient] methods return the parsed
    body whatever it is: there is no [success] envelope to check, so even a
    body saying [success: false] is handed to the caller; when the body is
    not JSON the call throws the parser's [SyntaxError]. *)
Theorem nasa_methods_return_any_body :
  forall (w : World) (r : Response),
    (forall req, nextAnswer w req = HttpResponse r) ->
    ok r = true ->
    (forall params,
        result (NASADebrisClient.getDebrisData params) w
        = match body r with
          | Some j => Return j
          | None => Throw (SyntaxError "Unexpected token in JSON")
          end)
    /\ result NASADebrisClient.getDebrisStatistics w
       = match body r with
         | Some j => Return j
         | None => Throw (SyntaxError "Unexpected token in JSON")
         end.
Proof.
  intros w r Hans Hok.
  split; [intros params|];
    unfold result, NASADebrisClient.getDebrisData, NASADebrisClient.getDebrisStatistics,
      bind;
    rewrite (fetch_answered _ _ _ (Hans _)), Hok; cbn; unfold json;
    destruct (body r); reflexivity.
Qed.

Lemma nasa_methods_return_any_body_witness :
  result (NASADebrisClient.getDebrisData None)
         (DemoEthers.freshWorld (DemoEthers.always DemoEthers.okButFailure))
  = Return (JObj [("success", JBool false); ("error", JStr "boom")]).
Proof.
  apply (nasa_methods_return_any_body
           (DemoEthers.freshWorld (DemoEthers.always DemoEthers.okButFailure))
           DemoEthers.okButFailure); reflexivity.
Defined.

(** ** Query strings *)

Lemma occurrences_app (c : ascii) (s t : string) :
  Utilities.occurrences c (s +:+ t)
  = (Utilities.occurrences c s + Utilities.occurrences c t)%nat.
Proof.
  induction s as [|d s IH]; [reflexivity|].
  change (String d s +:+ t) with (String d (s +:+ t)). cbn. rewrite IH. lia.
Qed.

Lemma formEncodeByte_no_separator (c : ascii) :
  Utilities.occurrences "&" (formEncodeByte c) = 0%nat
  /\ Utilities.occurrences "=" (formEncodeByte c) = 0%nat.
Proof. destruct c as [[] [] [] [] [] [] [] []]; vm_compute; split; reflexivity. Qed.

Lemma formEncode_no_separator (s : string) :
  Utilities.occurrences "&" (formEncode s) = 0%nat
  /\ Utilities.occurrences "=" (formEncode s) = 0%nat.
Proof.
  induction s as [|c s [IHa IHe]]; [split; reflexivity|].
  cbn [formEncode]. rewrite !occurrences_app, IHa, IHe.
  destruct (formEncodeByte_no_separator c) as [-> ->]. split; reflexivity.
Qed.

Lemma paramsToString_separators (l : URLSearchParams) :
  Utilities.occurrences "&" (paramsToString l) = pred (length l)
  /\ Utilities.occurrences "=" (paramsToString l) = length l.
Proof.
  unfold paramsToString.
  induction l as [|[k v] l [IHa IHe]]; [split; reflexivity|].
  destruct (formEncode_no_separator k) as [Hka Hke].
  destruct (formEncode_no_separator v) as [Hva Hve].
  destruct l as [|kv l].
  - cbn [map String.concat fst snd length pred].
    rewrite !occurrences_app, Hka, Hke, Hva, Hve. split; reflexivity.
  - remember (kv :: l) as rest.
    assert (Hc : String.concat "&"
                   (map (fun kv => formEncode (fst kv) +:+ "=" +:+ formEncode (snd kv))
                        ((k, v) :: rest))
                 = (formEncode k +:+ "=" +:+ formEncode v) +:+ "&"
                   +:+ String.concat "&"
                         (map (fun kv => formEncode (fst kv) +:+ "=" +:+ formEncode (snd kv))
                              rest))
      by (subst rest; reflexivity).
    rewrite Hc, !occurrences_app, IHa, IHe, Hka, Hke, Hva, Hve.
    subst rest. cbn. split; lia.
Qed.

(** X12.  Values cannot break out of the query string: in the queries built
    by [getTransactions], [getBlocks], [getSmartContracts] and
    [getDebrisData], every [=] belongs to one parameter and every [&]
    separates two, whatever characters the caller's [type], [status] or
    [address] contain, and there are at most three parameters. *)
Theorem query_strings_keep_their_shape :
  (forall params,
      let sp := BlockchainClient.transactionsSearchParams params in
      Utilities.occurrences "=" (paramsToString sp) = length sp
      /\ Utilities.occurrences "&" (paramsToString sp) = pred (length sp)
      /\ (length sp <= 3)%nat)
  /\ (forall params,
         let sp := BlockchainClient.blocksSearchParams params in
         Utilities.occurrences "=" (paramsToString sp) = length sp
         /\ Utilities.occurrences "&" (paramsToString sp) = pred (length sp)
         /\ (length sp <= 2)%nat)
  /\ (forall params,
         let sp := BlockchainClient.contractsSearchParams params in
         Utilities.occurrences "=" (paramsToString sp) = length sp
         /\ Utilities.occurrences "&" (paramsToString sp) = pred (length sp)
         /\ (length sp <= 2)%nat)
  /\ (forall params,
         let sp := NASADebrisClient.searchParamsOf params in
         Utilities.occurrences "=" (paramsToString sp) = length sp
         /\ Utilities.occurrences "&" (paramsToString sp) = pred (length sp)
         /\ (length sp <= 3)%nat).
Proof.
  split; [|split; [|split]]; intros params sp;
    destruct (paramsToString_separators sp) as [Ha He];
    (split; [exact He|split; [exact Ha|]]); subst sp.
  - destruct params as [[[ty|] [st|] [l|]]|]; cbn;
      repeat match goal with |- context [truthyStr ?s] => destruct (truthyStr s) end;
      repeat match goal with |- context [truthyNum ?n] => destruct (truthyNum n) end;
      cbn; lia.
  - destruct params as [[[l|] [h|]]|]; cbn;
      repeat match goal with |- context [truthyNum ?n] => destruct (truthyNum n) end;
      cbn; lia.
  - destruct params as [[[ty|] [ad|]]|]; cbn;
      repeat match goal with |- context [truthyStr ?s] => destruct (truthyStr s) end;
      cbn; lia.
  - destruct params as [[[[lo hi]|] sz [l|] ty]|]; cbn;
      repeat match goal with |- context [truthyNum ?n] => destruct (truthyNum n) end;
      cbn; lia.
Qed.

(** ** [createTransaction] on a client that holds blocks *)

Lemma arrayGet_last {A : Type} (l : list A) (a : A) :
  BlockchainClient.arrayGet (l ++ [a]) (Z.of_nat (length (l ++ [a])) - 1) = Some a.
Proof.
  unfold BlockchainClient.arrayGet. rewrite length_app. cbn [length].
  destruct (Z.ltb_spec (Z.of_nat (length l + 1) - 1) 0) as [Hlt|Hge]; [lia|].
  replace (Z.to_nat (Z.of_nat (length l + 1) - 1)) with (length l) by lia.
  rewrite nth_error_app2 by lia. now rewrite Nat.sub_diag.
Qed.

Lemma objectLiteral_snoc (properties : list (string * JsVal)) (k : string) (v : JsVal) :
  BlockchainClient.objectLiteral (properties ++ [(k, v)])
  = <[k := v]> (BlockchainClient.objectLiteral properties).
Proof. unfold BlockchainClient.objectLiteral. now rewrite fold_left_app. Qed.

Lemma property_other (object : gmap string JsVal) (i j : string) (x : JsVal) :
  i <> j -> <[i := x]> object !! j = object !! j.
Proof. apply lookup_insert_ne. Qed.

Lemma property_written (object : gmap string JsVal) (i : string) (x : JsVal) :
  <[i := x]> object !! i = Some x.
Proof. apply lookup_insert_eq. Qed.

Lemma fold_insert_other (properties : list (string * JsVal)) (object : gmap string JsVal)
    (name : string) :
  ~ In name (map fst properties) ->
  fold_left (fun object kv => <[fst kv := snd kv]> object) properties object !! name
  = object !! name.
Proof.
  revert object. induction properties as [|[k v] rest IH]; intros object Hnot;
    [reflexivity|].
  cbn in *. rewrite IH by tauto. apply lookup_insert_ne. intros ->. tauto.
Qed.

Lemma fold_insert_member (properties : list (string * JsVal)) (object : gmap string JsVal)
    (name : string) (v : JsVal) :
  NoDup (map fst properties) ->
  In (name, v) properties ->
  fold_left (fun object kv => <[fst kv := snd kv]> object) properties object !! name
  = Some v.
Proof.
  revert object. induction properties as [|[k v'] rest IH]; intros object Hnd Hin;
    [destruct Hin|].
  cbn in *. apply NoDup_cons in Hnd as [Hk Hnd]. destruct Hin as [[= -> ->]|Hin].
  - rewrite fold_insert_other by (rewrite <- list_elem_of_In; exact Hk).
    apply lookup_insert_eq.
  - now apply IH.
Qed.

Lemma assoc_In {A : Type} (name : string) (l : list (string * A)) (v : A) :
  assoc name l = Some v -> In (name, v) l.
Proof.
  induction l as [|[k v'] rest IH]; [discriminate|]. cbn.
  destruct (String.eqb_spec name k) as [->|Hne]; [intros [= ->]; now left|].
  intros Hrest. right. now apply IH.
Qed.

Lemma assoc_None {A : Type} (name : string) (l : list (string * A)) :
  assoc name l = None -> ~ In name (map fst l).
Proof.
  induction l as [|[k v'] rest IH]; [intros _ []|]. cbn.
  destruct (String.eqb_spec name k) as [->|Hne]; [discriminate|].
  intros Hrest [E|Hin]; [now destruct Hne|now apply IH].
Qed.

Lemma spread_names (payload : list (string * Json)) :
  map fst (BlockchainClient.spread payload) = map fst payload.
Proof. unfold BlockchainClient.spread. rewrite map_map. reflexivity. Qed.

Lemma exceptSignature_NoDup (txData : list (string * Json)) :
  NoDup (map fst txData) -> NoDup (map fst (exceptSignature txData)).
Proof.
  unfold exceptSignature. induction txData as [|[k v] rest IH]; [trivial|].
  cbn. intros Hnd. apply NoDup_cons in Hnd as [Hk Hnd].
  destruct (negb (String.eqb k "signature")); cbn; [|now apply IH].
  apply NoDup_cons. split; [|now apply IH].
  rewrite list_elem_of_In in *. intros Hin. apply Hk.
  apply in_map_iff in Hin as ([k' v'] & Hfst & Hin). apply in_map_iff.
  exists (k', v'). split; [exact Hfst|]. now apply filter_In in Hin as [Hin _].
Qed.

(** X13.  On a client whose [blocks] array is not empty (a state no public
    method produces), a submission whose signature verifies and whose
    [timestamp] has a text succeeds: the call returns [{ success: true }]
    and puts one new object at the front of [transactions].  That object
    carries the height of the last block, status [confirmed], gas 21000, the
    submitted signature, the timestamp's text, the hash of the signed text
    followed by the clock reading, every other property of the submission
    under its own name, and, unless the submission brings an [id] of its
    own, an id of [tx_] plus at most eight characters.  [blocks] and
    [baseUrl] are unchanged and no request is sent. *)
Theorem createTransaction_stores_on_existing_blocks `{Ethers} :
  forall (w : World) (txData : BlockchainClient.TxData) (signer declared text : string)
         (earlier : list Block) (lastBlock : Block),
    let message :=
      stringify (JObj (List.filter (fun kv => negb (String.eqb (fst kv) "signature"))
                                   txData)) in
    NoDup (map fst txData) ->
    verifyMessage message (assoc "signature" txData) = Some signer ->
    assoc "from" txData = Some (JStr declared) ->
    toLowerCase signer = toLowerCase declared ->
    BlockchainClient.callToString (assoc "timestamp" txData) = Return text ->
    blocks (this w) = (earlier ++ [lastBlock])%list ->
    result (BlockchainClient.createTransaction txData) w
    = Return (BlockchainClient.mkCreateResult true)
    /\ (exists tx : Transaction,
           transactions (this (after (BlockchainClient.createTransaction txData) w))
           = tx :: transactions (this w)
           /\ tx !! "blockHeight" = Some (Some (JNum (height lastBlock)))
           /\ tx !! "status" = Some (Some (JStr "confirmed"))
           /\ tx !! "gasUsed" = Some (Some (JNum 21000))
           /\ tx !! "signature" = Some (assoc "signature" txData)
           /\ tx !! "timestamp" = Some (Some (JStr text))
           /\ tx !! "hash" = Some (Some (JStr (id (message +:+ numToString (dateNow w)))))
           /\ (forall name value,
                  assoc name txData = Some value ->
                  ~ In name ["timestamp"; "status"; "blockHeight"; "hash"; "gasUsed";
                             "signature"] ->
                  tx !! name = Some (Some value))
           /\ (assoc "id" txData = None ->
               exists suffix,
                 tx !! "id" = Some (Some (JStr ("tx_" +:+ suffix)))
                 /\ (String.length suffix <= 8)%nat))
    /\ blocks (this (after (BlockchainClient.createTransaction txData) w)) = blocks (this w)
    /\ baseUrl (this (after (BlockchainClient.createTransaction txData) w))
       = baseUrl (this w)
    /\ sent (after (BlockchainClient.createTransaction txData) w) = sent w.
Proof.
  intros w txData signer declared text earlier lastBlock message Hnd Hv Hf Hl Hts Hblocks.
  pose proof (verifySignature_match (signedText txData) _ _ _ _ w Hv Hf Hl) as Hpass.
  assert (Hlast : BlockchainClient.arrayGet (blocks (this w))
                    (Z.of_nat (length (blocks (this w))) - 1) = Some lastBlock)
    by (rewrite Hblocks; apply arrayGet_last).
  pose proof (createTransaction_verified txData w Hpass) as Hrun.
  rewrite Hts, Hlast in Hrun. cbv zeta in Hrun.
  unfold result, after. rewrite Hrun.
  cbn [fst snd this with_this blocks baseUrl transactions sent with_randomCalls
         with_console].
  split; [reflexivity|]. split; [|split; [|split]]; try reflexivity.
  eexists. split; [reflexivity|].
  rewrite !app_assoc.
  change [("timestamp", Some (JStr text)); ("status", Some (JStr "confirmed"));
          ("blockHeight", Some (JNum (height lastBlock)));
          ("hash", Some (JStr (id (signedText txData +:+ numToString (dateNow w)))));
          ("gasUsed", Some (JNum 21000)); ("signature", assoc "signature" txData)]
    with ((((([("timestamp", Some (JStr text))] ++ [("status", Some (JStr "confirmed"))])
             ++ [("blockHeight", Some (JNum (height lastBlock)))])
            ++ [("hash", Some (JStr (id (signedText txData +:+ numToString (dateNow w)))))])
           ++ [("gasUsed", Some (JNum 21000))])
          ++ [("signature", assoc "signature" txData)])%list.
  rewrite !app_assoc, !objectLiteral_snoc.
  split; [|split; [|split; [|split; [|split; [|split; [|split]]]]]].
  1-6: rewrite ?property_other by discriminate; apply property_written.
  - intros name value Hname Hnot. cbn in Hnot.
    rewrite !property_other by (intros <-; tauto).
    unfold BlockchainClient.objectLiteral. rewrite fold_left_app.
    apply fold_insert_member.
    + rewrite spread_names. now apply exceptSignature_NoDup.
    + unfold BlockchainClient.spread. apply in_map_iff. exists (name, value).
      split; [reflexivity|]. apply assoc_In.
      rewrite assoc_exceptSignature; [exact Hname|intros ->; tauto].
  - intros Hid. exists (substring 2 8 (mathRandom w (randomCalls w))).
    split; [|rewrite length_substring; lia].
    rewrite !property_other by discriminate.
    unfold BlockchainClient.objectLiteral. rewrite fold_left_app.
    rewrite fold_insert_other.
    + cbn. apply property_written.
    + rewrite spread_names. apply assoc_None.
      rewrite assoc_exceptSignature; [exact Hid|discriminate].
Qed.

Lemma createTransaction_stores_on_existing_blocks_witness :
  result (BlockchainClient.createTransaction (H := DemoEthers.demo) DemoEthers.signedTx)
         DemoLedger.seededWorld
  = Return (BlockchainClient.mkCreateResult true).
Proof.
  apply (@createTransaction_stores_on_existing_blocks DemoEthers.demo
           DemoLedger.seededWorld DemoEthers.signedTx
           DemoEthers.aliceAddress (toLowerCase DemoEthers.aliceAddress) "1700000000000"
           [DemoLedger.genesis] DemoLedger.tip).
  - repeat (apply NoDup_cons; split; [rewrite list_elem_of_In; cbn; intuition discriminate|]).
    apply NoDup_nil. trivial.
  - vm_compute. reflexivity.
  - reflexivity.
  - vm_compute. reflexivity.
  - vm_compute. reflexivity.
  - reflexivity.
Defined.

(** ** The wallet hook across mounts *)

Lemma mountEffect_run `{Ethers} (w : World) :
  UseWallet.mountEffect w
  = (if UseWallet.falsyKey (localStorage w !! UseWallet.storageKey)
     then (do newWallet_ <- UseWallet.createRandomM;
           do_ setItem UseWallet.storageKey (privateKey newWallet_);
           do_ consoleLog [Text "New wallet created. Address:"; Text (address newWallet_)];
           ret (Some newWallet_))
     else tryCatch
            (do existingWallet <-
               UseWallet.newWalletM
                 (default "" (localStorage w !! UseWallet.storageKey));
             ret (Some existingWallet))
            (fun error =>
               do_ consoleError [Text "Failed to load wallet from private key:";
                                 Caught error];
               ret None)) w.
Proof. reflexivity. Qed.

Lemma mountEffect_creates `{Ethers} (w : World) :
  UseWallet.falsyKey (localStorage w !! UseWallet.storageKey) = true ->
  UseWallet.mountEffect w
  = (Return (Some (createRandom (entropy w (entropyCalls w)))),
     with_console
       (with_localStorage
          (with_entropyCalls w (S (entropyCalls w)))
          (<[UseWallet.storageKey := privateKey (createRandom (entropy w (entropyCalls w)))]>
             (localStorage w)))
       (console w ++ [ConsoleLog
                        [Text "New wallet created. Address:";
                         Text (address (createRandom (entropy w (entropyCalls w))))]])).
Proof. intros Hfalsy. rewrite mountEffect_run, Hfalsy. reflexivity. Qed.

Lemma mountEffect_loads `{Ethers} (w : World) (key : string) (wallet : Wallet) :
  localStorage w !! UseWallet.storageKey = Some key ->
  key <> "" ->
  newWallet key = Some wallet ->
  UseWallet.mountEffect w = (Return (Some wallet), w).
Proof.
  intros Hstored Hne Hnew. rewrite mountEffect_run, Hstored. cbn.
  rewrite (truthyStr_nonempty _ Hne). cbn.
  unfold tryCatch, bind, UseWallet.newWalletM. now rewrite Hnew.
Qed.

(** X14.  A wallet created on one mount is the wallet loaded on the next:
    when the first mount finds nothing usable stored and the library
    round-trips the fresh wallet's private key (the key is not empty and the
    constructor rebuilds the same wallet from it), a second mount returns
    that same wallet, leaves storage as the first mount left it, and draws no
    new entropy. *)
Theorem useWallet_second_mount_loads_first `{Ethers} :
  forall (w : World),
    let fresh := createRandom (entropy w (entropyCalls w)) in
    let w1 := after UseWallet.mountEffect w in
    UseWallet.falsyKey (localStorage w !! UseWallet.storageKey) = true ->
    privateKey fresh <> "" ->
    newWallet (privateKey fresh) = Some fresh ->
    result UseWallet.mountEffect w = Return (Some fresh)
    /\ result UseWallet.mountEffect w1 = Return (Some fresh)
    /\ localStorage (after UseWallet.mountEffect w1) = localStorage w1
    /\ entropyCalls (after UseWallet.mountEffect w1) = entropyCalls w1.
Proof.
  intros w fresh w1 Hfalsy Hne Hnew.
  pose proof (mountEffect_creates w Hfalsy) as Hfirst. fold fresh in Hfirst.
  assert (Hstored : localStorage w1 !! UseWallet.storageKey = Some (privateKey fresh)).
  { unfold w1, after. rewrite Hfirst. cbn. apply lookup_insert_eq. }
  pose proof (mountEffect_loads w1 _ _ Hstored Hne Hnew) as Hsecond.
  unfold result, after. fold (after UseWallet.mountEffect w). fold w1.
  rewrite Hfirst, Hsecond. repeat split.
Qed.

Lemma useWallet_second_mount_loads_first_witness :
  result (UseWallet.mountEffect (H := DemoEthers.demo))
         (after (UseWallet.mountEffect (H := DemoEthers.demo))
                (DemoEthers.freshWorld DemoEthers.noResponse))
  = Return (Some (DemoEthers.walletOf DemoEthers.aliceKey)).
Proof.
  apply (@useWallet_second_mount_loads_first DemoEthers.demo
           (DemoEthers.freshWorld DemoEthers.noResponse)).
  - reflexivity.
  - discriminate.
  - reflexivity.
Defined.

(** X15.  The mount effect is confined to its own storage entry: it sends
    no request, leaves the blockchain client object alone, and every other
    key of [localStorage] reads as before. *)
Theorem useWallet_touches_only_its_key `{Ethers} :
  forall (w : World),
    sent (after UseWallet.mountEffect w) = sent w
    /\ this (after UseWallet.mountEffect w) = this w
    /\ forall key,
         key <> UseWallet.storageKey ->
         localStorage (after UseWallet.mountEffect w) !! key = localStorage w !! key.
Proof.
  intros w. unfold after.
  destruct (UseWallet.falsyKey (localStorage w !! UseWallet.storageKey)) eqn:Hfalsy.
  - rewrite (mountEffect_creates w Hfalsy). cbn.
    split; [reflexivity|]. split; [reflexivity|].
    intros key Hkey. apply lookup_insert_ne. congruence.
  - rewrite mountEffect_run, Hfalsy.
    unfold tryCatch, bind, UseWallet.newWalletM.
    destruct (newWallet _); cbn; (split; [reflexivity|]); split; reflexivity.
Qed.

(** ** The scene: materials, HUD figures, frames in sequence *)

Section SceneLaws.

Import Scene SceneRun.
Local Open Scope R_scope.

Lemma setEmissiveIntensity_twice (m : Material) (i j : R) :
  (if isEmissiveMaterial
        (if isEmissiveMaterial m then setEmissiveIntensity m i else m)
   then setEmissiveIntensity
          (if isEmissiveMaterial m then setEmissiveIntensity m i else m) j
   else (if isEmissiveMaterial m then setEmissiveIntensity m i else m))
  = (if isEmissiveMaterial m then setEmissiveIntensity m j else m).
Proof. now destruct m. Qed.


(** X17.  Only the last intensity applied to a mesh counts: applying one
    intensity and then another leaves the mesh as applying the second alone
    would. *)
Theorem applyEmissiveIntensity_last_wins :
  forall (mesh : option Mesh) (first second : R),
    applyEmissiveIntensity (applyEmissiveIntensity mesh first) second
    = applyEmissiveIntensity mesh second.
Proof.
  intros [[p r s [mat|mats]]|] i j; [| |reflexivity].
  - unfold applyEmissiveIntensity; cbn. destruct mat; reflexivity.
  - unfold applyEmissiveIntensity; cbn. unfold withMaterial; cbn.
    do 3 f_equal. rewrite map_map. apply map_ext. intros m.
    apply setEmissiveIntensity_twice.
Qed.

Lemma floor_within (lo hi : Z) (v : R) :
  IZR lo <= v <= IZR hi -> IZR lo <= floor v <= IZR hi.
Proof.
  intros [Hlo Hhi]. unfold floor.
  destruct (base_Int_part v) as [Hle Hgt].
  split; apply IZR_le.
  - assert (IZR (lo - 1) < IZR (Int_part v)) by (rewrite minus_IZR; lra).
    apply lt_IZR in H. lia.
  - assert (IZR (Int_part v) < IZR (hi + 1)) by (rewrite plus_IZR; lra).
    apply lt_IZR in H. lia.
Qed.

Lemma percent_of_sine (v : R) : 0 <= floor ((sin v + 1) * 50) <= 100.
Proof.
  apply (floor_within 0 100). destruct (SIN_bound v). lra.
Qed.

(** X18.  The robotic arm's HUD figure is a percentage in step with its ref:
    if [activityProgress] equals [lastHudProgressRef] and lies in 0..100
    before a frame, so it does after the frame, active or not, at any clock
    reading; and the first frame after the arm goes inactive leaves it
    at 0. *)
Theorem RoboticArm_progress_stays_in_range :
  forall (isActive : bool) (time : R) (s : RoboticArm),
    hudInRange (ra_activityProgress s) (ra_lastHudProgressRef s) ->
    hudInRange (ra_activityProgress (RoboticArm_frame isActive time s))
               (ra_lastHudProgressRef (RoboticArm_frame isActive time s))
    /\ (isActive = false ->
          ra_activityProgress (RoboticArm_frame isActive time s) = 0).
Proof.
  intros isActive time s [Hsync Hrange]. unfold RoboticArm_frame, hudInRange.
  destruct isActive; cbn [negb].
  - split; [|discriminate].
    destruct (neq _ (ra_lastHudProgressRef s)); cbn.
    + split; [reflexivity|apply percent_of_sine].
    + now split.
  - destruct (neq (ra_lastHudProgressRef s) 0) eqn:E; cbn.
    + split; [split; [reflexivity|lra]|reflexivity].
    + apply neq_false in E. split; [now split|]. intros _. congruence.
Qed.

Lemma RoboticArm_progress_stays_in_range_witness :
  hudInRange
    (ra_activityProgress
       (RoboticArm_frame true 0 (RoboticArm_mount zero3 zero3 true 0.5)))
    (ra_lastHudProgressRef
       (RoboticArm_frame true 0 (RoboticArm_mount zero3 zero3 true 0.5)))
  /\ (true = false ->
        ra_activityProgress
          (RoboticArm_frame true 0 (RoboticArm_mount zero3 zero3 true 0.5)) = 0).
Proof.
  apply (RoboticArm_progress_stays_in_range true 0 (RoboticArm_mount zero3 zero3 true 0.5)).
  unfold hudInRange. cbn. lra.
Defined.

(** X19.  The printer's HUD figure is a percentage in step with its ref:
    if [printProgress] equals [lastProgressRef] and lies in 0..100 before a
    frame, so it does after, whether or not the printer is active or its
    meshes are mounted; and when the print object is mounted and active its
    [scale.y] after the frame is between 0 and 1. *)
Theorem Printer3D_progress_stays_in_range :
  forall (isActive : bool) (time : R) (s : Printer3D),
    hudInRange (pr_printProgress s) (pr_lastProgressRef s) ->
    hudInRange (pr_printProgress (Printer3D_frame isActive time s))
               (pr_lastProgressRef (Printer3D_frame isActive time s))
    /\ (isActive = true ->
          forall o, pr_printObjectRef s = Some o ->
          exists o', pr_printObjectRef (Printer3D_frame isActive time s) = Some o'
                     /\ 0 <= y (scale o') <= 1).
Proof.
  intros isActive time s [Hsync Hrange]. unfold Printer3D_frame, hudInRange.
  destruct (pr_printObjectRef s) as [o|] eqn:Ho; cbn [mounted andb];
    destruct isActive; cbn [andb].
  - destruct (neq _ (pr_lastProgressRef s)); cbn.
    + split; [split; [reflexivity|]|].
      * replace ((sin (time * 0.3) + 1) * 0.5 * 100) with ((sin (time * 0.3) + 1) * 50)
          by lra.
        apply percent_of_sine.
      * intros _ o0 [= <-]. eexists. split; [reflexivity|]. cbn.
        destruct (SIN_bound (time * 0.3)). lra.
    + split; [now split|].
      intros _ o0 [= <-]. eexists. split; [reflexivity|]. cbn.
      destruct (SIN_bound (time * 0.3)). lra.
  - split; [now split|discriminate].
  - split; [now split|]. intros _ o0 [=].
  - split; [now split|discriminate].
Qed.

Lemma Printer3D_progress_stays_in_range_witness :
  hudInRange (pr_printProgress (Printer3D_frame true 0 (Printer3D_mount true)))
             (pr_lastProgressRef (Printer3D_frame true 0 (Printer3D_mount true)))
  /\ (true = true ->
        forall o, pr_printObjectRef (Printer3D_mount true) = Some o ->
        exists o', pr_printObjectRef (Printer3D_frame true 0 (Printer3D_mount true)) = Some o'
                   /\ 0 <= y (scale o') <= 1).
Proof.
  apply (Printer3D_progress_stays_in_range true 0 (Printer3D_mount true)).
  unfold hudInRange. cbn. lra.
Defined.

(** X20.  A component that is not active is left still by its frame
    callback: the furnace, the printer and the debris arm are unchanged (the
    debris arm also when it is active but its group is not mounted), the
    repair station is unchanged and draws no random number when no operation
    is in progress, and the robotic arm keeps its meshes and its phase. *)
Theorem inactive_components_hold_still :
  forall (time : R),
    (forall s, Furnace_frame false time s = s)
    /\ (forall s, Printer3D_frame false time s = s)
    /\ (forall s, DebrisCollectionArm_frame false time s = s)
    /\ (forall scanner magnet debris,
           DebrisCollectionArm_frame true time
             (mkDebrisCollectionArm None scanner magnet debris)
           = mkDebrisCollectionArm None scanner magnet debris)
    /\ (forall currentOperation random n s,
           inProgress currentOperation = false ->
           RepairStation_frame false currentOperation time random n s = (s, n))
    /\ (forall s,
           ra_armRef (RoboticArm_frame false time s) = ra_armRef s
           /\ ra_joint1Ref (RoboticArm_frame false time s) = ra_joint1Ref s
           /\ ra_joint2Ref (RoboticArm_frame false time s) = ra_joint2Ref s
           /\ ra_effectorRef (RoboticArm_frame false time s) = ra_effectorRef s
           /\ ra_animationPhaseRef (RoboticArm_frame false time s)
              = ra_animationPhaseRef s).
Proof.
  intros time. split; [|split; [|split; [|split; [|split]]]].
  - intros [g p o]. unfold Furnace_frame. now rewrite !andb_false_r.
  - intros [e o p l]. unfold Printer3D_frame. now rewrite !andb_false_r.
  - intros s. unfold DebrisCollectionArm_frame. now rewrite orb_true_r.
  - reflexivity.
  - intros op random n [t d a sp] Hop. unfold RepairStation_frame.
    rewrite Hop, !andb_false_r. cbn. now destruct sp.
  - intros s. unfold RoboticArm_frame. cbn [negb].
    destruct (neq _ 0); repeat split.
Qed.

Lemma Furnace_frame_mounted (time : R) (g r o : Mesh) :
  exists g' r' o',
    Furnace_frame true time (mkFurnace (Some g) (Some r) (Some o))
    = mkFurnace (Some g') (Some r') (Some o')
    /\ y (rotation r') = y (rotation r) + 0.03.
Proof.
  unfold Furnace_frame. cbn [fu_glowRef fu_processingRef fu_outputRef mounted andb].
  destruct (applyEmissiveIntensity_transform g (0.6 + sin (time * 3) * 0.3))
    as (g' & -> & _).
  destruct (applyEmissiveIntensity_transform
              (withRotation r (setY (rotation r) (y (rotation r) + 0.03)))
              (0.3 + sin (time * 4) * 0.2)) as (r' & Hr & _ & Hrot & _).
  cbn [fmap option_fmap option_map]. cbn [fmap option_fmap option_map] in Hr.
  rewrite Hr. do 3 eexists. split; [reflexivity|]. now rewrite Hrot.
Qed.

(** X21.  The furnace ring turns by the frame, not by the clock: after any
    sequence of active frames, whatever their clock readings, its
    [rotation.y] is the starting value plus 0.03 for every frame run. *)
Theorem Furnace_ring_counts_frames :
  forall (times : list R) (g r o : Mesh),
    Furnace_ring (Furnace_frames true times (mkFurnace (Some g) (Some r) (Some o)))
    = Some (y (rotation r) + INR (length times) * 0.03).
Proof.
  induction times as [|time times IH]; intros g r o.
  - cbn. f_equal. lra.
  - change (Furnace_frames true (time :: times) (mkFurnace (Some g) (Some r) (Some o)))
      with (Furnace_frames true times
              (Furnace_frame true time (mkFurnace (Some g) (Some r) (Some o)))).
    destruct (Furnace_frame_mounted time g r o) as (g' & r' & o' & -> & Hrot).
    rewrite IH, Hrot. f_equal.
    change (length (time :: times)) with (S (length times)). rewrite S_INR. lra.
Qed.






Lemma floor_below (hi : Z) (v : R) : v < IZR (hi + 1) -> floor v <= IZR hi.
Proof.
  intros Hv. unfold floor. destruct (base_Int_part v) as [Hle _].
  apply IZR_le. assert (IZR (Int_part v) < IZR (hi + 1)) by lra.
  apply lt_IZR in H. lia.
Qed.

(** X24.  For a [Math.random()] value in [0, 1) the figures of the
    furnace HUD stay in their bands: the temperature between 1600 and 1700
    whatever [Date.now()] returns, the output between 25 and 74; and the
    debris HUD counts between 5 and 19 objects.  An inactive component shows
    no HUD. *)
Theorem hud_figures_stay_in_band :
  forall (dateNow random : R),
    0 <= random < 1 ->
    (exists temperature output,
        Furnace_hud true dateNow random = Some (temperature, output)
        /\ 1600 <= temperature <= 1700
        /\ 25 <= output <= 74)
    /\ (exists objects,
           DebrisCollectionArm_hud true random = Some objects
           /\ 5 <= objects <= 19)
    /\ Furnace_hud false dateNow random = None
    /\ DebrisCollectionArm_hud false random = None.
Proof.
  intros dateNow random [Hlo Hhi]. split; [|split; [|split; reflexivity]].
  - do 2 eexists. split; [reflexivity|].
    destruct (SIN_bound (dateNow * 0.01)) as [Hs1 Hs2].
    assert (Ht : IZR (-50) <= floor (sin (dateNow * 0.01) * 50) <= IZR 50)
      by (apply floor_within; lra).
    assert (Ho1 : IZR 0 <= floor (random * 50))
      by (apply (floor_within 0 50); lra).
    assert (Ho2 : floor (random * 50) <= IZR 49)
      by (apply floor_below; rewrite plus_IZR; lra).
    lra.
  - eexists. split; [reflexivity|].
    assert (Ho1 : IZR 0 <= floor (random * 15))
      by (apply (floor_within 0 15); lra).
    assert (Ho2 : floor (random * 15) <= IZR 14)
      by (apply floor_below; rewrite plus_IZR; lra).
    lra.
Qed.

Lemma hud_figures_stay_in_band_witness :
  exists objects,
    DebrisCollectionArm_hud true 0.5 = Some objects /\ 5 <= objects <= 19.
Proof. apply (hud_figures_stay_in_band 0 0.5). lra. Defined.

(** X25.  [SatelliteInteriorScene] activates at most one of its six
    components: whatever [activeSystem] is, at most one [isActive] prop is
    true, and none is when it is [null] or names no component. *)
Theorem at_most_one_component_active :
  forall (activeSystem : option string),
    (countTrue (activeFlags activeSystem) <= 1)%nat
    /\ (activeSystem = None -> countTrue (activeFlags activeSystem) = 0%nat)
    /\ (forall name,
           activeSystem = Some name ->
           ~ In name ["debris-collector"; "repair-station"; "furnace"; "printer";
                      "arm1"; "arm2"] ->
           countTrue (activeFlags activeSystem) = 0%nat).
Proof.
  intros [name|]; [|repeat split; cbn; lia].
  unfold activeFlags, isSystem, countTrue.
  split; [|split; [discriminate|]].
  - destruct (String.eqb_spec name "debris-collector") as [->|_]; [cbn; lia|].
    destruct (String.eqb_spec name "repair-station") as [->|_]; [cbn; lia|].
    destruct (String.eqb_spec name "furnace") as [->|_]; [cbn; lia|].
    destruct (String.eqb_spec name "printer") as [->|_]; [cbn; lia|].
    destruct (String.eqb_spec name "arm1") as [->|_]; [cbn; lia|].
    destruct (String.eqb_spec name "arm2") as [->|_]; cbn; lia.
  - intros name' [= <-] Hnot. cbn in Hnot.
    destruct (String.eqb_spec name "debris-collector") as [->|_]; [tauto|].
    destruct (String.eqb_spec name "repair-station") as [->|_]; [tauto|].
    destruct (String.eqb_spec name "furnace") as [->|_]; [tauto|].
    destruct (String.eqb_spec name "printer") as [->|_]; [tauto|].
    destruct (String.eqb_spec name "arm1") as [->|_]; [tauto|].
    destruct (String.eqb_spec name "arm2") as [->|_]; [tauto|reflexivity].
Qed.

Lemma Int_part_unique (n : Z) (v : R) : IZR n <= v < IZR n + 1 -> Int_part v = n.
Proof.
  intros [Hlo Hhi]. unfold Int_part.
  assert (Hup : (n + 1)%Z = up v) by (apply tech_up; rewrite plus_IZR; lra).
  lia.
Qed.

(** [Math.floor(time * 0.5) % 10] for a clock that has not run backwards:
    one of the ten layers. *)
Lemma layer_range (time : R) :
  0 <= time ->
  exists layer : Z,
    remainder (floor (time * 0.5)) 10 = IZR layer /\ (0 <= layer <= 9)%Z.
Proof.
  intros Htime. unfold floor. set (k := Int_part (time * 0.5)).
  assert (Hk : (0 <= k)%Z).
  { destruct (base_Int_part (time * 0.5)) as [_ Hgt]. fold k in Hgt.
    assert (IZR (-1) < IZR k) by lra. apply lt_IZR in H. lia. }
  pose proof (Z.div_mod k 10 ltac:(lia)) as Hdm.
  pose proof (Z.mod_pos_bound k 10 ltac:(lia)) as [Hm0 Hm10].
  assert (HR : IZR k = 10 * IZR (k / 10) + IZR (k mod 10)).
  { rewrite Hdm at 1. rewrite plus_IZR, mult_IZR. reflexivity. }
  assert (Hm0R : 0 <= IZR (k mod 10)) by (apply (IZR_le 0); lia).
  assert (Hm9R : IZR (k mod 10) <= 9) by (apply (IZR_le _ 9); lia).
  assert (Hq : Int_part (IZR k / 10) = (k / 10)%Z) by (apply Int_part_unique; lra).
  exists (k mod 10)%Z. split; [|lia].
  unfold remainder, truncate.
  destruct (Rle_dec 0 (IZR k / 10)) as [_|Hneg]; [rewrite Hq; lra|].
  exfalso. apply Hneg. assert (0 <= IZR k) by (apply (IZR_le 0); lia). lra.
Qed.

(** X26.  While the printer is active and the clock has not run backwards,
    a frame puts the mounted extruder within 0.15 of the centre line in [x]
    and [z] and on one of the ten layer heights between 0.12 and 0.3 in [y],
    and leaves its rotation, scale and material alone. *)
Theorem extruder_stays_over_the_bed :
  forall (time : R) (s : Printer3D) (extruder : Mesh),
    0 <= time ->
    pr_extruderRef s = Some extruder ->
    exists extruder',
      pr_extruderRef (Printer3D_frame true time s) = Some extruder'
      /\ -0.15 <= x (position extruder') <= 0.15
      /\ -0.15 <= z (position extruder') <= 0.15
      /\ 0.12 <= y (position extruder') <= 0.3
      /\ (exists layer : Z, (0 <= layer <= 9)%Z
                            /\ y (position extruder') = 0.3 - IZR layer * 0.02)
      /\ rotation extruder' = rotation extruder
      /\ scale extruder' = scale extruder
      /\ material extruder' = material extruder.
Proof.
  intros time s extruder Htime Href.
  destruct (layer_range time Htime) as (layer & Hlayer & Hrange).
  assert (H0 : 0 <= IZR layer) by (apply (IZR_le 0); lia).
  assert (H9 : IZR layer <= 9) by (apply (IZR_le _ 9); lia).
  destruct (SIN_bound (time * 2)) as [Hs1 Hs2].
  destruct (COS_bound (time * 1.8)) as [Hc1 Hc2].
  exists (withPosition extruder
            (mkVec3 (sin (time * 2) * 0.15) (0.3 - IZR layer * 0.02)
                    (cos (time * 1.8) * 0.15))).
  split.
  - unfold Printer3D_frame. rewrite Href. cbn [mounted andb]. rewrite Hlayer.
    destruct (mounted (pr_printObjectRef s)); cbn [andb];
      [destruct (neq _ _)|]; reflexivity.
  - cbn. repeat split; try lra. exists layer. now split.
Qed.

Lemma extruder_stays_over_the_bed_witness :
  exists extruder',
    pr_extruderRef (Printer3D_frame true 3 (Printer3D_mount true)) = Some extruder'
    /\ -0.15 <= x (position extruder') <= 0.15
    /\ -0.15 <= z (position extruder') <= 0.15
    /\ 0.12 <= y (position extruder') <= 0.3
    /\ (exists layer : Z, (0 <= layer <= 9)%Z
                          /\ y (position extruder') = 0.3 - IZR layer * 0.02)
    /\ rotation extruder' = rotation (standardMesh (mkVec3 0 0.3 0) 0.4)
    /\ scale extruder' = scale (standardMesh (mkVec3 0 0.3 0) 0.4)
    /\ material extruder' = material (standardMesh (mkVec3 0 0.3 0) 0.4).
Proof.
  apply (extruder_stays_over_the_bed 3 (Printer3D_mount true)
           (standardMesh (mkVec3 0 0.3 0) 0.4)); [lra|reflexivity].
Defined.

(** X27.  While active and mounted, a frame keeps the robotic arm within
    its limits at any clock reading and phase: the base turns at most 0.5,
    the first joint at most 0.3 and the second at most 0.4 either way, the
    effector's [scale.x] stays between 0.8 and 1.2, and the HUD shows a
    figure between 0 and 100. *)
Theorem RoboticArm_stays_within_limits :
  forall (time phase : R) (arm : Object3D) (joint1 joint2 effector : Mesh) (shown : R),
    exists base j1 j2 stretch hud,
      RoboticArm_pose
        (RoboticArm_frame true time
           (mkRoboticArm (Some arm) (Some joint1) (Some joint2) (Some effector)
                         phase shown shown))
      = (Some base, Some j1, Some j2, Some stretch, Some hud)
      /\ -0.5 <= base <= 0.5
      /\ -0.3 <= j1 <= 0.3
      /\ -0.4 <= j2 <= 0.4
      /\ 0.8 <= stretch <= 1.2
      /\ 0 <= hud <= 100.
Proof.
  intros time phase arm joint1 joint2 effector shown.
  do 5 eexists. split; [apply RoboticArm_pose_at|].
  destruct (SIN_bound (time * 0.4 + phase)), (COS_bound (time * 0.6 + phase)),
    (SIN_bound (time * 0.8 + phase)), (SIN_bound (time * 2 + phase)).
  repeat split; try lra; apply percent_of_sine.
Qed.

End SceneLaws.

(** ** Side effects of [createTransaction], and the shape of the requests *)

(** X28.  On a client without blocks, a submission changes nothing but the
    console and the random source.  A rejected one adds one [console.error]
    entry, the text [Signature verification failed:] followed by the error
    that was caught, and draws no random number; the caught error is the
    library's when recovery throws and the mismatch [Error] when the
    recovered address differs from a string [from].  One whose signature
    verifies adds the [console.log] line of the source and draws one random
    number before the call fails.  Storage, the request log and the client
    object are as before in both cases. *)
Theorem createTransaction_side_effects `{Ethers} :
  forall (w : World) (txData : BlockchainClient.TxData),
    let message :=
      stringify (JObj (List.filter (fun kv => negb (String.eqb (fst kv) "signature"))
                                   txData)) in
    let failure caught :=
      with_console w (console w ++ [ConsoleError [Text "Signature verification failed:";
                                                  Caught caught]]) in
    blocks (this w) = [] ->
    (verifyMessage message (assoc "signature" txData) = None ->
     exists reason,
       after (BlockchainClient.createTransaction txData) w = failure (LibraryError reason))
    /\ (forall signer declared,
           verifyMessage message (assoc "signature" txData) = Some signer ->
           assoc "from" txData = Some (JStr declared) ->
           toLowerCase signer <> toLowerCase declared ->
           after (BlockchainClient.createTransaction txData) w
           = failure (Error "Signature is invalid or does not match the sender's address."))
    /\ (forall signer declared,
           verifyMessage message (assoc "signature" txData) = Some signer ->
           assoc "from" txData = Some (JStr declared) ->
           toLowerCase signer = toLowerCase declared ->
           after (BlockchainClient.createTransaction txData) w
           = with_randomCalls
               (with_console w
                  (console w ++ [ConsoleLog [Text "âœ… Signature Verified Successfully!"]]))
               (S (randomCalls w))).
Proof.
  intros w txData message failure Hblocks. subst failure.
  change message with (signedText txData) in *. clear message.
  split; [|split].
  - intros Hv. eexists. unfold after. rewrite createTransaction_run. unfold bind at 1.
    unfold BlockchainClient.verifySignature, BlockchainClient.verifyMessageM, tryCatch.
    unfold bind at 1. rewrite Hv. reflexivity.
  - intros signer declared Hv Hf Hne. unfold after. rewrite createTransaction_run.
    unfold bind at 1.
    unfold BlockchainClient.verifySignature, BlockchainClient.verifyMessageM, tryCatch.
    unfold bind at 1. rewrite Hv, Hf. cbn.
    destruct (String.eqb_spec (toLowerCase signer) (toLowerCase declared));
      [contradiction|reflexivity].
  - intros signer declared Hv Hf Hl.
    pose proof (verifySignature_match (signedText txData) _ _ _ _ w Hv Hf Hl) as Hpass.
    unfold after. rewrite (createTransaction_verified txData w Hpass), Hblocks.
    destruct (BlockchainClient.callToString _); reflexivity.
Qed.

(** The body of the [POST] follows the caller's order of properties. *)
Example executeContract_body_follows_caller_order :
  forall (w : World),
    issued (BlockchainClient.executeContract
              [("contractAddress", JStr "0xC"); ("functionName", JStr "f");
               ("parameters", JArr [])]) w
    <> issued (BlockchainClient.executeContract
                 [("functionName", JStr "f"); ("contractAddress", JStr "0xC");
                  ("parameters", JArr [])]) w.
Proof.
  intros w.
  assert (Hsent : forall params,
             issued (BlockchainClient.executeContract params) w
             = [mkRequest (baseUrl (this w) +:+ "/smart-contracts") "POST"
                          [("Content-Type", "application/json")]
                          (Some (stringify (JObj params)))]).
  { intros params. unfold BlockchainClient.executeContract.
    apply (issued_self_fetch_then
             (fun self => mkRequest (baseUrl self +:+ "/smart-contracts") "POST"
                            [("Content-Type", "application/json")]
                            (Some (stringify (JObj params))))).
    intros r. unfold offline. auto with js_run. }
  rewrite !Hsent. intros Heq. injection Heq as Hbody. revert Hbody.
  vm_compute. discriminate.
Qed.

Lemma createTransaction_side_effects_witness :
  after (BlockchainClient.createTransaction (H := DemoEthers.demo)
           DemoEthers.shuffledWithOtherTextSigned)
        (DemoEthers.freshWorld DemoEthers.noResponse)
  = with_console (DemoEthers.freshWorld DemoEthers.noResponse)
      (console (DemoEthers.freshWorld DemoEthers.noResponse)
       ++ [ConsoleError [Text "Signature verification failed:";
                         Caught (LibraryError "invalid signature")]]).
Proof.
  destruct (@createTransaction_side_effects DemoEthers.demo
              (DemoEthers.freshWorld DemoEthers.noResponse)
              DemoEthers.shuffledWithOtherTextSigned eq_refl) as (Hnone & _ & _).
  destruct (Hnone eq_refl) as (reason & Hrun).
  rewrite Hrun. vm_compute in Hrun. injection Hrun as <-. reflexivity.
Defined.

(** X29.  [getAnalytics] asks for a timeframe of ["7d"] when none is given
    and writes a given timeframe into the URL as it is: every [&] and [=] of
    the argument reaches the URL, unlike the parameters of the other
    methods.  [executeContract] is the one method that sends a [POST], with
    a JSON content type and, as body, the JSON text of the object it was
    given, property by property in the caller's order. *)
Theorem getAnalytics_writes_timeframe_verbatim :
  forall (w : World),
    (forall timeframe,
        issued (BlockchainClient.getAnalytics timeframe) w
        = [GET (baseUrl (this w) +:+ "/analytics?timeframe=" +:+ default "7d" timeframe)])
    /\ (forall timeframe c,
           Utilities.occurrences c
             (baseUrl (this w) +:+ "/analytics?timeframe=" +:+ timeframe)
           = (Utilities.occurrences c (baseUrl (this w))
              + Utilities.occurrences c "/analytics?timeframe="
              + Utilities.occurrences c timeframe)%nat)
    /\ (forall params,
           issued (BlockchainClient.executeContract params) w
           = [mkRequest (baseUrl (this w) +:+ "/smart-contracts") "POST"
                        [("Content-Type", "application/json")]
                        (Some (stringify (JObj params)))]).
Proof.
  intros w. split; [|split].
  - intros timeframe. unfold BlockchainClient.getAnalytics.
    apply (issued_self_fetch_then
             (fun self => GET (baseUrl self +:+ "/analytics?timeframe="
                               +:+ default "7d" timeframe))).
    intros r. unfold offline. auto with js_run.
  - intros timeframe c. rewrite !occurrences_app. lia.
  - intros params. unfold BlockchainClient.executeContract.
    apply (issued_self_fetch_then
             (fun self => mkRequest (baseUrl self +:+ "/smart-contracts") "POST"
                            [("Content-Type", "application/json")]
                            (Some (stringify (JObj params))))).
    intros r. unfold offline. auto with js_run.
Qed.
